(** * Mujin vision controller client: command execution and response validation

    A shallow embedding of [mujinvisioncontrollerclient/visioncontrollerclient.py]
    (class [VisionControllerClient]) and the properties of its command
    building, dispatch, response validation and teardown.

    Python objects are embedded as the inductive [value]; dictionaries are
    finite maps with string keys; a method of the client is a function in the
    monad [M] that threads the client object, the log and the sequence of
    calls made on the external collaborators, and that either returns or
    raises. *)

From Stdlib Require Import QArith ZArith Ascii String.
From stdpp Require Import base option list gmap strings pretty.

Set Warnings "-register-all".
Set Default Proof Using "Type*".

Open Scope string_scope.

(** ** Python values *)

(** The objects the client handles: command and response dictionaries,
    their entries, raw text payloads, timeouts and flags. *)
Inductive value :=
| VNone
| VBool (b : bool)
| VInt (n : Z)
| VFloat (q : Q)
| VStr (s : string)
| VList (xs : list value)
| VDict (d : gmap string value).

Abbreviation dict := (gmap string value).

(** [bool(v)]: what [if v:] tests. *)
Definition truthy (v : value) : bool :=
  match v with
  | VNone => false
  | VBool b => b
  | VInt n => negb (n =? 0)%Z
  | VFloat q => negb (Qeq_bool q 0)
  | VStr s => negb (String.eqb s "")
  | VList xs => match xs with [] => false | _ :: _ => true end
  | VDict d => negb (size d =? 0)%nat
  end.

(** [v is not None]. *)
Definition is_not_None (v : value) : bool :=
  match v with VNone => false | _ => true end.

(** [v is True]: identity with the singleton [True]. *)
Definition is_True (v : value) : bool :=
  match v with VBool true => true | _ => false end.

(** [v == s] for a string literal [s]. *)
Definition eq_str (v : value) (s : string) : bool :=
  match v with VStr t => String.eqb t s | _ => false end.

(** ** Exceptions *)

(** Modelled from the spec: the exception classes [VisionControllerClientError]
    and [VisionControllerTimeoutError] are declared in the package's
    [__init__] module, which is not part of the sources at hand; they are
    taken as the client uses them, a message and an [errortype] keyword.
    [TimeoutError] is the transport's timeout failure, [Exception] stands for
    every other subclass of [Exception] (named by [cls]) and [BaseException]
    for the classes an [except Exception] clause does not catch.

    A message built by [_(msgid) % args] is kept as the pair [MsgPercent msgid
    args]: the translation function and the rendering of numbers are not
    evaluated. *)
Inductive pyexn :=
| TimeoutError (detail : string)
| Exception (cls detail : string)
| BaseException (cls : string)
| VisionControllerClientError (msg : message) (errortype : value)
| VisionControllerTimeoutError (msg : message) (errortype : value)
with message :=
| MsgValue (v : value)
| MsgPercent (msgid : string) (args : fmtargs)
with fmtargs :=
| ArgSingle (a : fmtarg)
| ArgTuple (xs : list fmtarg)
| ArgMapping (kvs : list (string * fmtarg))
with fmtarg :=
| ArgValue (v : value)
| ArgExn (e : pyexn).

Definition TypeError (detail : string) : pyexn := Exception "TypeError" detail.
Definition KeyError (detail : string) : pyexn := Exception "KeyError" detail.
Definition IndexError (detail : string) : pyexn := Exception "IndexError" detail.
Definition AttributeError (detail : string) : pyexn := Exception "AttributeError" detail.
Definition OverflowError (detail : string) : pyexn := Exception "OverflowError" detail.

(** [isinstance(e, Exception)]: what [except Exception] catches. *)
Definition is_Exception (e : pyexn) : bool :=
  match e with BaseException _ => false | _ => true end.

(** [isinstance(e, TimeoutError)]: what [except TimeoutError] catches. *)
Definition is_TimeoutError (e : pyexn) : bool :=
  match e with TimeoutError _ => true | _ => false end.

(** The error kind of a failure: the [errortype] it carries, if any. *)
Definition errortype_of (e : pyexn) : option value :=
  match e with
  | VisionControllerClientError _ t | VisionControllerTimeoutError _ t => Some t
  | _ => None
  end.

(** ** Computations that return or raise *)

Inductive outcome (A : Type) :=
| Return (a : A)
| Raise (e : pyexn).
Arguments Return {A} a.
Arguments Raise {A} e.

#[global] Instance outcome_ret : MRet outcome := @Return.
#[global] Instance outcome_bind : MBind outcome := fun A B f m =>
  match m with Return a => f a | Raise e => Raise e end.

Definition raises {A} (m : outcome A) : bool :=
  match m with Raise _ => true | Return _ => false end.

(** ** Python operations on values *)

(** [len(v)]. *)
Definition py_len (v : value) : outcome Z :=
  match v with
  | VStr s => Return (Z.of_nat (String.length s))
  | VList xs => Return (Z.of_nat (length xs))
  | VDict d => Return (Z.of_nat (size d))
  | _ => Raise (TypeError "object has no len()")
  end.

(** Is [key] a substring of [s]? *)
Definition substringb (key s : string) : bool :=
  match String.index 0 key s with Some _ => true | None => false end.

(** [key in v] for a string [key]. *)
Definition py_contains (key : string) (v : value) : outcome bool :=
  match v with
  | VDict d => Return (bool_decide (is_Some (d !! key)))
  | VList xs => Return (existsb (fun x => eq_str x key) xs)
  | VStr s => Return (substringb key s)
  | _ => Raise (TypeError "argument is not iterable")
  end.

(** [v[key]] for a string [key]. *)
Definition py_getitem (v : value) (key : string) : outcome value :=
  match v with
  | VDict d => match d !! key with
               | Some x => Return x
               | None => Raise (KeyError key)
               end
  | VList _ | VStr _ => Raise (TypeError "indices must be integers")
  | _ => Raise (TypeError "object is not subscriptable")
  end.

(** [v[i]] for an integer [i]; a negative [i] counts from the end. *)
Definition py_index (v : value) (i : Z) : outcome value :=
  match v with
  | VStr s =>
      let n := Z.of_nat (String.length s) in
      let j := if (i <? 0)%Z then (i + n)%Z else i in
      if ((0 <=? j) && (j <? n))%Z then
        match String.get (Z.to_nat j) s with
        | Some c => Return (VStr (String c EmptyString))
        | None => Raise (IndexError "string index out of range")
        end
      else Raise (IndexError "string index out of range")
  | VList xs =>
      let n := Z.of_nat (length xs) in
      let j := if (i <? 0)%Z then (i + n)%Z else i in
      if ((0 <=? j) && (j <? n))%Z then
        match xs !! Z.to_nat j with
        | Some x => Return x
        | None => Raise (IndexError "list index out of range")
        end
      else Raise (IndexError "list index out of range")
  | VDict _ => Raise (KeyError "integer key")
  | _ => Raise (TypeError "object is not subscriptable")
  end.

(** [d.get(key, dflt)]. *)
Definition dict_get (d : dict) (key : string) (dflt : value) : value :=
  default dflt (d !! key).

(** ** The JSON decoder

    [json.loads] belongs to the library the package imports; the client only
    calls it. It is an interface here: a decoder either returns the decoded
    object or raises. *)
Class Json := { loads : string -> outcome value }.

(** [json.loads(v)]: only text can be decoded. *)
Definition json_loads `{Json} (v : value) : outcome value :=
  match v with
  | VStr s => loads s
  | _ => Raise (TypeError "the JSON object must be str")
  end.

(** ** Response validation *)

Section ProcessResponse.
Context `{Json}.

(** The nested function [_HandleError] of [_ProcessResponse]. *)
Definition _HandleError (response : value) : outcome unit :=
  err ← py_getitem response "error";
  match err with
  | VDict e =>
      Raise (VisionControllerClientError
               (MsgValue (dict_get e "desc" (VStr "")))
               (dict_get e "type" (VStr "")))
  | _ =>
      Raise (VisionControllerClientError
               (MsgPercent "Got unknown error from vision manager: %r"
                  (ArgSingle (ArgValue err)))
               (VStr "unknownerror"))
  end.

(** [len(response) > 0 and response[0] == '{' and response[-1] == '}'] *)
Definition looks_like_json (response : value) : outcome bool :=
  n ← py_len response;
  if (0 <? n)%Z then
    c ← py_index response 0;
    if eq_str c "{" then
      c' ← py_index response (-1);
      Return (eq_str c' "}")
    else Return false
  else Return false.

Definition _ProcessResponse (response command : value) (recvjson : bool)
  : outcome value :=
  if recvjson then
    has ← py_contains "error" response;
    (if has : bool then _HandleError response else Return ());;
    Return response
  else
    sniffed ← looks_like_json response;
    response ← (if sniffed : bool then
                   response ← json_loads response;
                   has ← py_contains "error" response;
                   (if has : bool then _HandleError response else Return ());;
                   Return response
                 else Return response);
    n ← py_len response;
    if (n =? 0)%Z then
      Raise (VisionControllerClientError
               (MsgPercent
                  "Vision command %(command)s failed with empty response %(response)r"
                  (ArgMapping [("command", ArgValue command);
                               ("response", ArgValue response)]))
               (VStr "emptyresponseerror"))
    else Return response.

End ProcessResponse.

(** ** Building command payloads

    Each high-level operation first builds its command dictionary; the
    functions below are those first halves, one per operation, with every
    argument passed explicitly (a caller who omits an argument passes the
    default of the Python signature). *)

(** [command[k] = v] under the guard [c]. *)
Definition setitem_if (c : bool) (k : string) (v : value) (command : dict)
  : dict :=
  if c then <[k := v]> command else command.

(** [command.update(other)]: the entries of [other] win. *)
Definition update (command other : dict) : dict := other ∪ command.

(** [1 if v is True else 0] *)
Definition one_if_True (v : value) : value :=
  if is_True v then VInt 1 else VInt 0.

(** The order in which the interpreter iterates over the keys of a
    dictionary. It is decided by the history of the dictionary object (the
    order of the insertions, or the layout of the hash table), which a [dict]
    here, a finite map, does not record. The order is therefore an interface:
    some arrangement of the keys, the same for the same entries. *)
Class DictOrder := {
  keys_in_order : dict -> list string;
  keys_in_order_perm : forall d, keys_in_order d ≡ₚ (map_to_list d).*1
}.

(** [list(v)]: the elements of a list, the characters of a string, the keys
    of a dictionary in iteration order. *)
Definition py_list `{DictOrder} (v : value) : outcome value :=
  match v with
  | VList xs => Return (VList xs)
  | VStr s => Return (VList ((fun c => VStr (String c EmptyString)) <$> list_ascii_of_string s))
  | VDict d => Return (VList (VStr <$> keys_in_order d))
  | _ => Raise (TypeError "object is not iterable")
  end.

Definition StartObjectDetectionTask_command (vminitparams : dict)
    (taskId locationName ignoreocclusion targetDynamicDetectorParameters
     detectionstarttimestamp locale maxnumfastdetection maxnumdetection
     stopOnNotNeedContainer targetupdatename numthreads cycleIndex
     ignorePlanningState ignoreDetectionFileUpdateChange
     sendVerificationPointCloud forceClearRegion detectionTriggerMode
     useLocationState : value) (kwargs : dict) : dict :=
  let command := <["targetupdatename" := targetupdatename]>
                   (<["command" := VStr "StartObjectDetectionTask"]> ∅) in
  let command := update command vminitparams in
  let command := setitem_if (is_not_None locationName) "locationName" locationName command in
  let command := setitem_if (truthy taskId) "taskId" taskId command in
  let command := setitem_if (is_not_None ignoreocclusion) "ignoreocclusion" (one_if_True ignoreocclusion) command in
  let command := setitem_if (is_not_None targetDynamicDetectorParameters) "targetDynamicDetectorParameters" targetDynamicDetectorParameters command in
  let command := setitem_if (is_not_None detectionstarttimestamp) "detectionstarttimestamp" detectionstarttimestamp command in
  let command := setitem_if (is_not_None locale) "locale" locale command in
  let command := setitem_if (is_not_None sendVerificationPointCloud) "sendVerificationPointCloud" sendVerificationPointCloud command in
  let command := setitem_if (is_not_None stopOnNotNeedContainer) "stopOnNotNeedContainer" stopOnNotNeedContainer command in
  let command := setitem_if (is_not_None maxnumdetection) "maxnumdetection" maxnumdetection command in
  let command := setitem_if (is_not_None maxnumfastdetection) "maxnumfastdetection" maxnumfastdetection command in
  let command := setitem_if (is_not_None numthreads) "numthreads" numthreads command in
  let command := setitem_if (is_not_None cycleIndex) "cycleIndex" cycleIndex command in
  let command := setitem_if (is_not_None ignorePlanningState) "ignorePlanningState" ignorePlanningState command in
  let command := setitem_if (is_not_None ignoreDetectionFileUpdateChange) "ignoreDetectionFileUpdateChange" ignoreDetectionFileUpdateChange command in
  let command := setitem_if (is_not_None forceClearRegion) "forceClearRegion" forceClearRegion command in
  let command := setitem_if (is_not_None detectionTriggerMode) "detectionTriggerMode" detectionTriggerMode command in
  let command := setitem_if (is_not_None useLocationState) "useLocationState" useLocationState command in
  update command kwargs.

Definition StartContainerDetectionTask_command (vminitparams : dict)
    (taskId locationName ignoreocclusion targetDynamicDetectorParameters
     detectionstarttimestamp locale numthreads cycleIndex ignorePlanningState
     stopOnNotNeedContainer useLocationState : value) (kwargs : dict) : dict :=
  let command := <["command" := VStr "StartContainerDetectionTask"]> ∅ in
  let command := update command vminitparams in
  let command := setitem_if (truthy taskId) "taskId" taskId command in
  let command := setitem_if (is_not_None locationName) "locationName" locationName command in
  let command := setitem_if (is_not_None ignoreocclusion) "ignoreocclusion" (one_if_True ignoreocclusion) command in
  let command := setitem_if (is_not_None targetDynamicDetectorParameters) "targetDynamicDetectorParameters" targetDynamicDetectorParameters command in
  let command := setitem_if (is_not_None detectionstarttimestamp) "detectionstarttimestamp" detectionstarttimestamp command in
  let command := setitem_if (is_not_None locale) "locale" locale command in
  let command := setitem_if (is_not_None numthreads) "numthreads" numthreads command in
  let command := setitem_if (is_not_None cycleIndex) "cycleIndex" cycleIndex command in
  let command := setitem_if (is_not_None ignorePlanningState) "ignorePlanningState" ignorePlanningState command in
  let command := setitem_if (is_not_None stopOnNotNeedContainer) "stopOnNotNeedContainer" stopOnNotNeedContainer command in
  let command := setitem_if (is_not_None useLocationState) "useLocationState" useLocationState command in
  update command kwargs.

Definition StopTask_command
    (taskId taskIds taskType taskTypes cycleIndex waitForStop removeTask : value)
  : dict :=
  let command := <["removeTask" := removeTask]>
                   (<["waitForStop" := waitForStop]>
                      (<["command" := VStr "StopTask"]> ∅)) in
  let command := setitem_if (truthy taskId) "taskId" taskId command in
  let command := setitem_if (truthy taskIds) "taskIds" taskIds command in
  let command := setitem_if (truthy taskType) "taskType" taskType command in
  let command := setitem_if (truthy taskTypes) "taskTypes" taskTypes command in
  setitem_if (truthy cycleIndex) "cycleIndex" cycleIndex command.

Definition ResumeTask_command
    (taskId taskIds taskType taskTypes cycleIndex waitForStop : value) : dict :=
  let command := <["waitForStop" := waitForStop]>
                   (<["command" := VStr "ResumeTask"]> ∅) in
  let command := setitem_if (truthy taskId) "taskId" taskId command in
  let command := setitem_if (truthy taskIds) "taskIds" taskIds command in
  let command := setitem_if (truthy taskType) "taskType" taskType command in
  let command := setitem_if (truthy taskTypes) "taskTypes" taskTypes command in
  setitem_if (truthy cycleIndex) "cycleIndex" cycleIndex command.

Definition StartVisualizePointCloudTask_command `{DictOrder}
    (vminitparams : dict)
    (locationName sensorSelectionInfos pointsize ignoreocclusion
     newerthantimestamp request filteringsubsample filteringvoxelsize
     filteringstddev filteringnumnn : value) : outcome dict :=
  let command := <["command" := VStr "StartVisualizePointCloudTask"]> ∅ in
  let command := update command vminitparams in
  let command := setitem_if (is_not_None locationName) "locationName" locationName command in
  command ← (if is_not_None sensorSelectionInfos then
               infos ← py_list sensorSelectionInfos;
               Return (<["sensorSelectionInfos" := infos]> command)
             else Return command);
  let command := setitem_if (is_not_None pointsize) "pointsize" pointsize command in
  let command := setitem_if (is_not_None ignoreocclusion) "ignoreocclusion" (one_if_True ignoreocclusion) command in
  let command := setitem_if (is_not_None newerthantimestamp) "newerthantimestamp" newerthantimestamp command in
  let command := setitem_if (is_not_None request) "request" (one_if_True request) command in
  let command := setitem_if (is_not_None filteringsubsample) "filteringsubsample" filteringsubsample command in
  let command := setitem_if (is_not_None filteringvoxelsize) "filteringvoxelsize" filteringvoxelsize command in
  let command := setitem_if (is_not_None filteringstddev) "filteringstddev" filteringstddev command in
  let command := setitem_if (is_not_None filteringnumnn) "filteringnumnn" filteringnumnn command in
  Return command.

Definition BackupVisionLog_command (cycleIndex sensorTimestamps : value) : dict :=
  let sensorTimestamps :=
    if is_not_None sensorTimestamps then sensorTimestamps else VList [] in
  <["sensorTimestamps" := sensorTimestamps]>
    (<["cycleIndex" := cycleIndex]>
       (<["command" := VStr "BackupDetectionLogs"]> ∅)).

Definition GetLatestDetectedObjects_command (taskId cycleIndex taskType : value)
  : dict :=
  let command := <["command" := VStr "GetLatestDetectedObjects"]> ∅ in
  let command := setitem_if (truthy taskId) "taskId" taskId command in
  let command := setitem_if (truthy cycleIndex) "cycleIndex" cycleIndex command in
  setitem_if (truthy taskType) "taskType" taskType command.

Definition GetLatestDetectionResultImages_command
    (taskId cycleIndex taskType newerthantimestamp sensorSelectionInfo
     metadataOnly imageTypes limit : value) : dict :=
  let command := <["newerthantimestamp" := newerthantimestamp]>
                   (<["command" := VStr "GetLatestDetectionResultImages"]> ∅) in
  let command := setitem_if (truthy taskId) "taskId" taskId command in
  let command := setitem_if (truthy cycleIndex) "cycleIndex" cycleIndex command in
  let command := setitem_if (truthy taskType) "taskType" taskType command in
  let command := setitem_if (truthy sensorSelectionInfo) "sensorSelectionInfo" sensorSelectionInfo command in
  let command := setitem_if (truthy metadataOnly) "metadataOnly" metadataOnly command in
  let command := setitem_if (truthy imageTypes) "imageTypes" imageTypes command in
  setitem_if (truthy limit) "limit" limit command.

Definition GetDetectionHistory_command (timestamp : value) : dict :=
  <["timestamp" := timestamp]> (<["command" := VStr "GetDetectionHistory"]> ∅).

Definition GetVisionStatistics_command (taskId cycleIndex taskType : value)
  : dict :=
  let command := <["command" := VStr "GetVisionStatistics"]> ∅ in
  let command := setitem_if (truthy taskId) "taskId" taskId command in
  let command := setitem_if (truthy cycleIndex) "cycleIndex" cycleIndex command in
  setitem_if (truthy taskType) "taskType" taskType command.

Definition Ping_command : dict := <["command" := VStr "Ping"]> ∅.

Definition SetLogLevel_command (componentLevels : value) : dict :=
  <["componentLevels" := componentLevels]>
    (<["command" := VStr "SetLogLevel"]> ∅).

Definition Cancel_command : dict := <["command" := VStr "Cancel"]> ∅.

Definition Quit_command : dict := <["command" := VStr "Quit"]> ∅.

Definition GetTaskStateService_command (taskId cycleIndex taskType : value)
  : dict :=
  let command := <["command" := VStr "GetTaskState"]> ∅ in
  let command := setitem_if (truthy taskId) "taskId" taskId command in
  let command := setitem_if (truthy cycleIndex) "cycleIndex" cycleIndex command in
  setitem_if (truthy taskType) "taskType" taskType command.

Definition GetPublishedStateService_command : dict :=
  <["command" := VStr "GetPublishedState"]> ∅.

(** ** External collaborators

    The request/response socket, the subscriber and the messaging context
    come from other packages; the client only calls them. Each is an
    interface over the collaborator's own state: a method returns or raises,
    and leaves the object in a new state. *)

(** A [checkpreemptfn] callable is only passed along. *)
Inductive Callable := CheckPreemptFn (name : string).

Module zmq.
Class Context (C : Type) := {
  new_Context : C;
  set_linger : C -> Z -> C;
  destroy : C -> outcome unit * C
}.
End zmq.

Module zmqclient.
Class ZmqClient (C S : Type) := {
  ZmqClient_new :
    string -> Z -> option C -> Z -> option Callable -> value -> S;
  SendCommand :
    S -> dict -> forall (fireandforget : bool) (timeout : value)
      (recvjson : option bool) (checkpreempt : bool)
      (blockwait : option bool), outcome value * S;
  ReceiveCommand :
    S -> forall (timeout : value) (recvjson : bool), outcome value * S;
  IsWaitingReply : S -> bool;
  Destroy : S -> outcome unit * S;
  SetDestroy : S -> outcome unit * S
}.
End zmqclient.

Module zmqsubscriber.
Class ZmqSubscriber (C B : Type) := {
  ZmqSubscriber_new : string -> option C -> B;
  SpinOnce : B -> value -> option Callable -> outcome value * B;
  Destroy : B -> outcome unit * B
}.
End zmqsubscriber.

(** The two request channels of a client. *)
Inductive Channel := CommandChannel | ConfigurationChannel.

(** The calls a client makes on its collaborators, in the order made. *)
Inductive Call :=
| CallSendCommand (ch : Channel) (command : dict) (fireandforget : bool)
    (timeout : value) (recvjson : option bool) (checkpreempt : bool)
    (blockwait : option bool)
| CallReceiveCommand (timeout : value) (recvjson : bool)
| CallIsWaitingReply
| CallSetDestroy (ch : Channel)
| CallDestroySocket (ch : Channel)
| CallDestroySubscriber
| CallDestroyContext
| CallSpinOnce (timeout : value).

(** A record handed to the module's logger. *)
Record LogRecord := mkLog {
  log_level : string;
  log_msg : string;
  log_args : list fmtarg
}.

(** ** The client *)

Section Client.
Context {C S B : Type}.
Context `{!zmq.Context C, !zmqclient.ZmqClient C S,
          !zmqsubscriber.ZmqSubscriber C B, !Json, !DictOrder}.

(** The attributes of a [VisionControllerClient] object. An attribute that
    holds [None] is [None] here. *)
Record VisionControllerClient := mkClient {
  _ctx : option C;
  _ctxown : option C;
  hostname : string;
  commandport : Z;
  configurationport : Z;
  statusport : Z;
  _commandsocket : option S;
  _configurationsocket : option S;
  _callerid : value;
  _checkpreemptfn : option Callable;
  _subscriber : option B
}.

(** What a method can see and change: the client object, the log and the
    calls made so far. *)
Record World := mkWorld {
  self : VisionControllerClient;
  logged : list LogRecord;
  calls : list Call
}.

Definition M (A : Type) : Type := World -> outcome A * World.

#[global] Instance M_ret : MRet M := fun A a w => (Return a, w).
#[global] Instance M_bind : MBind M := fun A B f m w =>
  match m w with
  | (Return a, w') => f a w'
  | (Raise e, w') => (Raise e, w')
  end.

Definition raise {A} (e : pyexn) : M A := fun w => (Raise e, w).
Definition lift {A} (m : outcome A) : M A := fun w => (m, w).
Definition get_self : M VisionControllerClient := fun w => (Return (self w), w).
Definition modify_self (f : VisionControllerClient -> VisionControllerClient)
  : M unit :=
  fun w => (Return (), mkWorld (f (self w)) (logged w) (calls w)).
Definition record_call (c : Call) : M unit :=
  fun w => (Return (), mkWorld (self w) (logged w) (calls w ++ [c])).
Definition log (level msg : string) (args : list fmtarg) : M unit :=
  fun w => (Return (), mkWorld (self w) (logged w ++ [mkLog level msg args]) (calls w)).

(** [try: body except Exception as e: handler(e)] *)
Definition try_except_Exception {A} (body : M A) (handler : pyexn -> M A)
  : M A :=
  fun w =>
    match body w with
    | (Raise e, w') => if is_Exception e then handler e w' else (Raise e, w')
    | r => r
    end.

(** Attribute updates. *)
Definition set_ctx (x : option C) (c : VisionControllerClient) :=
  mkClient x (_ctxown c) (hostname c) (commandport c) (configurationport c)
    (statusport c) (_commandsocket c) (_configurationsocket c) (_callerid c)
    (_checkpreemptfn c) (_subscriber c).
Definition set_ctxown (x : option C) (c : VisionControllerClient) :=
  mkClient (_ctx c) x (hostname c) (commandport c) (configurationport c)
    (statusport c) (_commandsocket c) (_configurationsocket c) (_callerid c)
    (_checkpreemptfn c) (_subscriber c).
Definition set_commandsocket (x : option S) (c : VisionControllerClient) :=
  mkClient (_ctx c) (_ctxown c) (hostname c) (commandport c)
    (configurationport c) (statusport c) x (_configurationsocket c)
    (_callerid c) (_checkpreemptfn c) (_subscriber c).
Definition set_configurationsocket (x : option S) (c : VisionControllerClient) :=
  mkClient (_ctx c) (_ctxown c) (hostname c) (commandport c)
    (configurationport c) (statusport c) (_commandsocket c) x
    (_callerid c) (_checkpreemptfn c) (_subscriber c).
Definition set_subscriber (x : option B) (c : VisionControllerClient) :=
  mkClient (_ctx c) (_ctxown c) (hostname c) (commandport c)
    (configurationport c) (statusport c) (_commandsocket c)
    (_configurationsocket c) (_callerid c) (_checkpreemptfn c) x.

Definition socket_of (ch : Channel) (c : VisionControllerClient) : option S :=
  match ch with
  | CommandChannel => _commandsocket c
  | ConfigurationChannel => _configurationsocket c
  end.
Definition set_socket (ch : Channel) (x : option S) :=
  match ch with
  | CommandChannel => set_commandsocket x
  | ConfigurationChannel => set_configurationsocket x
  end.

(** A method call on the socket of channel [ch]: looking the method up on
    [None] raises [AttributeError]; otherwise the call is made and the
    socket is left in its new state. *)
Definition on_socket {A} (ch : Channel) (call : Call)
    (method : S -> outcome A * S) : M A :=
  c ← get_self;
  match socket_of ch c with
  | None => raise (AttributeError "'NoneType' object has no attribute")
  | Some s =>
      record_call call;;
      let '(r, s') := method s in
      modify_self (set_socket ch (Some s'));;
      lift r
  end.

Definition on_subscriber {A} (call : Call) (method : B -> outcome A * B)
  : M A :=
  c ← get_self;
  match _subscriber c with
  | None => raise (AttributeError "'NoneType' object has no attribute")
  | Some b =>
      record_call call;;
      let '(r, b') := method b in
      modify_self (set_subscriber (Some b'));;
      lift r
  end.

Definition on_ctxown {A} (call : Call) (method : C -> outcome A * C) : M A :=
  c ← get_self;
  match _ctxown c with
  | None => raise (AttributeError "'NoneType' object has no attribute")
  | Some x =>
      record_call call;;
      let '(r, x') := method x in
      modify_self (set_ctxown (Some x'));;
      lift r
  end.

(** [try: body except ...]: [handlers e] is the body of the first clause
    that matches [e], if any; an exception no clause matches propagates. *)
Definition try_except {A} (body : M A) (handlers : pyexn -> option (M A))
  : M A :=
  fun w =>
    match body w with
    | (Raise e, w') =>
        match handlers e with
        | Some handler => handler w'
        | None => (Raise e, w')
        end
    | r => r
    end.

(** [__init__] *)
Definition __init__ (hostname : string) (commandport : Z) (ctx : option C)
    (checkpreemptfn : option Callable) (reconnectionTimeout callerid : value)
  : VisionControllerClient :=
  let configurationport := (commandport + 2)%Z in
  let statusport := (commandport + 3)%Z in
  let ctxown :=
    match ctx with
    | None => Some (zmq.set_linger zmq.new_Context 100)
    | Some _ => None
    end in
  let ctx := match ctx with None => ctxown | Some x => Some x end in
  mkClient ctx ctxown hostname commandport configurationport statusport
    (Some (zmqclient.ZmqClient_new hostname commandport ctx 3
             checkpreemptfn reconnectionTimeout))
    (Some (zmqclient.ZmqClient_new hostname configurationport ctx 3
             checkpreemptfn reconnectionTimeout))
    callerid checkpreemptfn None.

Definition SetDestroy : M unit :=
  c ← get_self;
  match _commandsocket c with
  | Some _ => on_socket CommandChannel (CallSetDestroy CommandChannel)
                zmqclient.SetDestroy
  | None => mret ()
  end;;
  c ← get_self;
  match _configurationsocket c with
  | Some _ => on_socket ConfigurationChannel
                (CallSetDestroy ConfigurationChannel) zmqclient.SetDestroy
  | None => mret ()
  end.

Definition Destroy : M unit :=
  SetDestroy;;
  c ← get_self;
  match _commandsocket c with
  | Some _ =>
      try_except
        (on_socket CommandChannel (CallDestroySocket CommandChannel)
           zmqclient.Destroy;;
         modify_self (set_commandsocket None))
        (fun e =>
           if is_Exception e then
             Some (log "exception" "problem destroying commandsocket: %s"
                     [ArgExn e])
           else None)
  | None => mret ()
  end;;
  c ← get_self;
  match _configurationsocket c with
  | Some _ =>
      try_except
        (on_socket ConfigurationChannel
           (CallDestroySocket ConfigurationChannel) zmqclient.Destroy;;
         modify_self (set_configurationsocket None))
        (fun e =>
           if is_Exception e then
             Some (log "exception" "problem destroying configurationsocket: %s"
                     [ArgExn e])
           else None)
  | None => mret ()
  end;;
  c ← get_self;
  match _subscriber c with
  | Some _ =>
      on_subscriber CallDestroySubscriber zmqsubscriber.Destroy;;
      modify_self (set_subscriber None)
  | None => mret ()
  end;;
  c ← get_self;
  match _ctxown c with
  | Some _ =>
      try_except
        (on_ctxown CallDestroyContext zmq.destroy;;
         modify_self (set_ctxown None))
        (fun e =>
           if is_Exception e then
             Some (log "exception" "problem destroying ctxown: %s" [ArgExn e])
           else None)
  | None => mret ()
  end;;
  modify_self (set_ctx None).

(** [__del__] *)
Definition __del__ : M unit := Destroy.

(** The caller identifier is written into the payload when it is truthy. *)
Definition with_callerid (c : VisionControllerClient) (command : dict) : dict :=
  setitem_if (truthy (_callerid c)) "callerid" (_callerid c) command.

Definition _ExecuteCommand (command : dict) (fireandforget : bool)
    (timeout : value) (recvjson checkpreempt blockwait : bool) : M value :=
  c ← get_self;
  let command := with_callerid c command in
  response ← on_socket CommandChannel
    (CallSendCommand CommandChannel command fireandforget timeout
       (Some recvjson) checkpreempt (Some blockwait))
    (fun s => zmqclient.SendCommand s command fireandforget timeout
                (Some recvjson) checkpreempt (Some blockwait));
  if blockwait && negb fireandforget then
    lift (_ProcessResponse response (VDict command) recvjson)
  else mret response.

(** [command.get('command') or ''] when [command] is a dictionary, [''] otherwise. *)
Definition commandName_of (command : value) : value :=
  match command with
  | VDict d =>
      let name := dict_get d "command" VNone in
      if truthy name then name else VStr ""
  | _ => VStr ""
  end.

(** Is the integer [n] too large to be converted to a float? The conversion
    rounds to 53 significant bits and overflows from [2^1024 - 2^970] on,
    the first integer that rounds to [2^1024]. *)
Definition float_overflow (n : Z) : bool :=
  (2 ^ 1024 - 2 ^ 970 <=? Z.abs n)%Z.

(** What the conversion [%.03f] makes of the value to render: it accepts a
    float or a boolean, an integer that converts to a float, and raises
    [OverflowError] for a larger integer and [TypeError] for anything else,
    [None] included. *)
Definition percent_f (v : value) : outcome unit :=
  match v with
  | VFloat _ | VBool _ => Return ()
  | VInt n =>
      if float_overflow n
      then Raise (OverflowError "int too large to convert to float")
      else Return ()
  | _ => Raise (TypeError "must be real number")
  end.

(** The double-quote character of the message below. *)
Definition dquote : string := String (ascii_of_nat 34) EmptyString.

Definition _WaitForResponse (recvjson : bool) (timeout command : value)
  : M value :=
  let commandName := commandName_of command in
  waiting ← on_socket CommandChannel CallIsWaitingReply
    (fun s => (Return (zmqclient.IsWaitingReply s), s));
  if negb waiting then
    raise (VisionControllerClientError
             (MsgPercent
                ("Waiting on command " ++ dquote ++ "%(commandName)s" ++ dquote
                 ++ " when wait signal is not on")
                (ArgMapping [("commandName", ArgValue commandName)]))
             (VStr "invalidwait"))
  else
    c ← get_self;
    response ← try_except
      (on_socket CommandChannel (CallReceiveCommand timeout recvjson)
         (fun s => zmqclient.ReceiveCommand s timeout recvjson))
      (fun e =>
         if is_TimeoutError e then
           Some (lift (percent_f timeout);;
                 raise (VisionControllerTimeoutError
                          (MsgPercent
                             "Timed out after %.03f seconds to get response message %s from %s:%d: %s"
                             (ArgTuple [ArgValue timeout; ArgValue commandName;
                                        ArgValue (VStr (hostname c));
                                        ArgValue (VInt (commandport c));
                                        ArgExn e]))
                          (VStr "timeout")))
         else if is_Exception e then
           Some (raise (VisionControllerClientError
                          (MsgPercent
                             "Problem receiving response from the last vision manager async call %s: %s"
                             (ArgTuple [ArgValue commandName; ArgExn e]))
                          (VStr "unknownerror")))
         else None);
    lift (_ProcessResponse response command recvjson).

Definition IsWaitingResponse : M bool :=
  on_socket CommandChannel CallIsWaitingReply
    (fun s => (Return (zmqclient.IsWaitingReply s), s)).

Definition _SendConfiguration (configuration : dict) (fireandforget : bool)
    (timeout : value) (checkpreempt recvjson : bool) : M value :=
  c ← get_self;
  let configuration := with_callerid c configuration in
  response ← on_socket ConfigurationChannel
    (CallSendCommand ConfigurationChannel configuration fireandforget timeout
       None checkpreempt None)
    (fun s => zmqclient.SendCommand s configuration fireandforget timeout
                None checkpreempt None);
  if negb fireandforget then
    lift (_ProcessResponse response (VDict configuration) recvjson)
  else mret response.

(** *** High-level operations *)

Definition StartObjectDetectionTask (vminitparams : dict)
    (taskId locationName ignoreocclusion targetDynamicDetectorParameters
     detectionstarttimestamp locale maxnumfastdetection maxnumdetection
     stopOnNotNeedContainer timeout targetupdatename numthreads cycleIndex
     ignorePlanningState ignoreDetectionFileUpdateChange
     sendVerificationPointCloud forceClearRegion waitForTrigger
     detectionTriggerMode useLocationState : value) (kwargs : dict) : M value :=
  log "verbose" "Starting detection thread..." [];;
  _ExecuteCommand
    (StartObjectDetectionTask_command vminitparams taskId locationName
       ignoreocclusion targetDynamicDetectorParameters detectionstarttimestamp
       locale maxnumfastdetection maxnumdetection stopOnNotNeedContainer
       targetupdatename numthreads cycleIndex ignorePlanningState
       ignoreDetectionFileUpdateChange sendVerificationPointCloud
       forceClearRegion detectionTriggerMode useLocationState kwargs)
    false timeout true true true.

Definition StartContainerDetectionTask (vminitparams : dict)
    (taskId locationName ignoreocclusion targetDynamicDetectorParameters
     detectionstarttimestamp locale timeout numthreads cycleIndex
     ignorePlanningState stopOnNotNeedContainer useLocationState : value)
    (kwargs : dict) : M value :=
  log "verbose" "Starting container detection thread..." [];;
  _ExecuteCommand
    (StartContainerDetectionTask_command vminitparams taskId locationName
       ignoreocclusion targetDynamicDetectorParameters detectionstarttimestamp
       locale numthreads cycleIndex ignorePlanningState stopOnNotNeedContainer
       useLocationState kwargs)
    false timeout true true true.

Definition StopTask
    (taskId taskIds taskType taskTypes cycleIndex waitForStop removeTask : value)
    (fireandforget : bool) (timeout : value) : M value :=
  log "verbose" "Stopping detection thread..." [];;
  _ExecuteCommand
    (StopTask_command taskId taskIds taskType taskTypes cycleIndex waitForStop
       removeTask)
    fireandforget timeout true true true.

Definition ResumeTask
    (taskId taskIds taskType taskTypes cycleIndex waitForStop : value)
    (fireandforget : bool) (timeout : value) : M value :=
  log "verbose" "Stopping detection thread..." [];;
  _ExecuteCommand
    (ResumeTask_command taskId taskIds taskType taskTypes cycleIndex waitForStop)
    fireandforget timeout true true true.

Definition StartVisualizePointCloudTask (vminitparams : dict)
    (locationName sensorSelectionInfos pointsize ignoreocclusion
     newerthantimestamp request timeout filteringsubsample filteringvoxelsize
     filteringstddev filteringnumnn : value) : M value :=
  log "verbose" "Starting visualize pointcloud thread..." [];;
  command ← lift (StartVisualizePointCloudTask_command vminitparams
                    locationName sensorSelectionInfos pointsize ignoreocclusion
                    newerthantimestamp request filteringsubsample
                    filteringvoxelsize filteringstddev filteringnumnn);
  _ExecuteCommand command false timeout true true true.

Definition BackupVisionLog (cycleIndex sensorTimestamps : value)
    (fireandforget : bool) (timeout : value) : M value :=
  _ExecuteCommand (BackupVisionLog_command cycleIndex sensorTimestamps)
    fireandforget timeout true true true.

Definition GetLatestDetectedObjects (taskId cycleIndex taskType timeout : value)
  : M value :=
  _ExecuteCommand (GetLatestDetectedObjects_command taskId cycleIndex taskType)
    false timeout true true true.

Definition GetLatestDetectionResultImages
    (taskId cycleIndex taskType newerthantimestamp sensorSelectionInfo
     metadataOnly imageTypes limit : value) (blockwait : bool)
    (timeout : value) : M value :=
  log "verbose" "Getting latest detection result images..." [];;
  _ExecuteCommand
    (GetLatestDetectionResultImages_command taskId cycleIndex taskType
       newerthantimestamp sensorSelectionInfo metadataOnly imageTypes limit)
    false timeout false true blockwait.

Definition WaitForGetLatestDetectionResultImages (timeout : value) : M value :=
  _WaitForResponse false timeout VNone.

Definition GetDetectionHistory (timestamp timeout : value) : M value :=
  log "verbose" "Getting detection result at %r ..." [ArgValue timestamp];;
  _ExecuteCommand (GetDetectionHistory_command timestamp)
    false timeout false true true.

Definition GetVisionStatistics (taskId cycleIndex taskType timeout : value)
  : M value :=
  _ExecuteCommand (GetVisionStatistics_command taskId cycleIndex taskType)
    false timeout true true true.

Definition Ping (timeout : value) : M value :=
  _SendConfiguration Ping_command false timeout true true.

Definition SetLogLevel (componentLevels timeout : value) : M value :=
  _SendConfiguration (SetLogLevel_command componentLevels)
    false timeout true true.

Definition Cancel (timeout : value) : M value :=
  log "info" "canceling command..." [];;
  response ← _SendConfiguration Cancel_command false timeout true true;
  log "info" "command is stopped" [];;
  mret response.

Definition Quit (timeout : value) : M value :=
  log "info" "stopping visionserver..." [];;
  response ← _SendConfiguration Quit_command false timeout true true;
  log "info" "visionserver is stopped" [];;
  mret response.

Definition GetTaskStateService (taskId cycleIndex taskType timeout : value)
  : M value :=
  response ← _SendConfiguration
    (GetTaskStateService_command taskId cycleIndex taskType)
    false timeout true true;
  mret response.

Definition GetPublishedStateService (timeout : value) : M value :=
  response ← _SendConfiguration GetPublishedStateService_command
    false timeout true true;
  mret response.

Definition GetPublishedState (timeout : value) (fireandforget : bool)
  : M value :=
  c ← get_self;
  match _subscriber c with
  | None =>
      modify_self
        (set_subscriber
           (Some (zmqsubscriber.ZmqSubscriber_new
                    ("tcp://" ++ hostname c ++ ":" ++ pretty (statusport c))
                    (_ctx c))))
  | Some _ => mret ()
  end;;
  rawState ← on_subscriber (CallSpinOnce timeout)
    (fun b => zmqsubscriber.SpinOnce b timeout (_checkpreemptfn c));
  if is_not_None rawState then lift (json_loads rawState) else mret VNone.

End Client.

(** ** The high-level operations as data

    One constructor per high-level operation, carrying the arguments that
    reach its payload, so that a statement can range over every operation. *)
Inductive operation :=
| OpStartObjectDetectionTask (vminitparams : dict)
    (taskId locationName ignoreocclusion targetDynamicDetectorParameters
     detectionstarttimestamp locale maxnumfastdetection maxnumdetection
     stopOnNotNeedContainer targetupdatename numthreads cycleIndex
     ignorePlanningState ignoreDetectionFileUpdateChange
     sendVerificationPointCloud forceClearRegion detectionTriggerMode
     useLocationState : value) (kwargs : dict)
| OpStartContainerDetectionTask (vminitparams : dict)
    (taskId locationName ignoreocclusion targetDynamicDetectorParameters
     detectionstarttimestamp locale numthreads cycleIndex ignorePlanningState
     stopOnNotNeedContainer useLocationState : value) (kwargs : dict)
| OpStopTask
    (taskId taskIds taskType taskTypes cycleIndex waitForStop removeTask : value)
| OpResumeTask
    (taskId taskIds taskType taskTypes cycleIndex waitForStop : value)
| OpStartVisualizePointCloudTask (vminitparams : dict)
    (locationName sensorSelectionInfos pointsize ignoreocclusion
     newerthantimestamp request filteringsubsample filteringvoxelsize
     filteringstddev filteringnumnn : value)
| OpBackupVisionLog (cycleIndex sensorTimestamps : value)
| OpGetLatestDetectedObjects (taskId cycleIndex taskType : value)
| OpGetLatestDetectionResultImages
    (taskId cycleIndex taskType newerthantimestamp sensorSelectionInfo
     metadataOnly imageTypes limit : value)
| OpGetDetectionHistory (timestamp : value)
| OpGetVisionStatistics (taskId cycleIndex taskType : value)
| OpPing
| OpSetLogLevel (componentLevels : value)
| OpCancel
| OpQuit
| OpGetTaskStateService (taskId cycleIndex taskType : value)
| OpGetPublishedStateService.

(** The payload an operation builds. *)
Definition payload `{DictOrder} (op : operation) : outcome dict :=
  match op with
  | OpStartObjectDetectionTask vm a1 a2 a3 a4 a5 a6 a7 a8 a9 a10 a11 a12 a13
      a14 a15 a16 a17 a18 kw =>
      Return (StartObjectDetectionTask_command vm a1 a2 a3 a4 a5 a6 a7 a8 a9
                a10 a11 a12 a13 a14 a15 a16 a17 a18 kw)
  | OpStartContainerDetectionTask vm a1 a2 a3 a4 a5 a6 a7 a8 a9 a10 a11 kw =>
      Return (StartContainerDetectionTask_command vm a1 a2 a3 a4 a5 a6 a7 a8
                a9 a10 a11 kw)
  | OpStopTask a1 a2 a3 a4 a5 a6 a7 =>
      Return (StopTask_command a1 a2 a3 a4 a5 a6 a7)
  | OpResumeTask a1 a2 a3 a4 a5 a6 =>
      Return (ResumeTask_command a1 a2 a3 a4 a5 a6)
  | OpStartVisualizePointCloudTask vm a1 a2 a3 a4 a5 a6 a7 a8 a9 a10 =>
      StartVisualizePointCloudTask_command vm a1 a2 a3 a4 a5 a6 a7 a8 a9 a10
  | OpBackupVisionLog a1 a2 => Return (BackupVisionLog_command a1 a2)
  | OpGetLatestDetectedObjects a1 a2 a3 =>
      Return (GetLatestDetectedObjects_command a1 a2 a3)
  | OpGetLatestDetectionResultImages a1 a2 a3 a4 a5 a6 a7 a8 =>
      Return (GetLatestDetectionResultImages_command a1 a2 a3 a4 a5 a6 a7 a8)
  | OpGetDetectionHistory a1 => Return (GetDetectionHistory_command a1)
  | OpGetVisionStatistics a1 a2 a3 =>
      Return (GetVisionStatistics_command a1 a2 a3)
  | OpPing => Return Ping_command
  | OpSetLogLevel a1 => Return (SetLogLevel_command a1)
  | OpCancel => Return Cancel_command
  | OpQuit => Return Quit_command
  | OpGetTaskStateService a1 a2 a3 =>
      Return (GetTaskStateService_command a1 a2 a3)
  | OpGetPublishedStateService => Return GetPublishedStateService_command
  end.

(** The name an operation writes under ["command"]. *)
Definition command_name (op : operation) : string :=
  match op with
  | OpStartObjectDetectionTask _ _ _ _ _ _ _ _ _ _ _ _ _ _ _ _ _ _ _ _ =>
      "StartObjectDetectionTask"
  | OpStartContainerDetectionTask _ _ _ _ _ _ _ _ _ _ _ _ _ =>
      "StartContainerDetectionTask"
  | OpStopTask _ _ _ _ _ _ _ => "StopTask"
  | OpResumeTask _ _ _ _ _ _ => "ResumeTask"
  | OpStartVisualizePointCloudTask _ _ _ _ _ _ _ _ _ _ _ =>
      "StartVisualizePointCloudTask"
  | OpBackupVisionLog _ _ => "BackupDetectionLogs"
  | OpGetLatestDetectedObjects _ _ _ => "GetLatestDetectedObjects"
  | OpGetLatestDetectionResultImages _ _ _ _ _ _ _ _ =>
      "GetLatestDetectionResultImages"
  | OpGetDetectionHistory _ => "GetDetectionHistory"
  | OpGetVisionStatistics _ _ _ => "GetVisionStatistics"
  | OpPing => "Ping"
  | OpSetLogLevel _ => "SetLogLevel"
  | OpCancel => "Cancel"
  | OpQuit => "Quit"
  | OpGetTaskStateService _ _ _ => "GetTaskState"
  | OpGetPublishedStateService => "GetPublishedState"
  end.

(** The keys of the dictionaries the caller hands over to be merged into the
    payload ([vminitparams] and [**kwargs]). *)
Definition merged_keys (op : operation) : gset string :=
  match op with
  | OpStartObjectDetectionTask vm _ _ _ _ _ _ _ _ _ _ _ _ _ _ _ _ _ _ kw
  | OpStartContainerDetectionTask vm _ _ _ _ _ _ _ _ _ _ _ kw =>
      dom vm ∪ dom kw
  | OpStartVisualizePointCloudTask vm _ _ _ _ _ _ _ _ _ _ => dom vm
  | _ => ∅
  end.

(** The arguments an operation writes in the literal its payload starts
    from, whatever their value, each with the value written: the required
    arguments and the optional arguments that are not guarded. *)
Definition literal_args (op : operation) : list (string * value) :=
  match op with
  | OpStartObjectDetectionTask _ _ _ _ _ _ _ _ _ _ targetupdatename _ _ _ _ _
      _ _ _ _ =>
      [("targetupdatename", targetupdatename)]
  | OpStopTask _ _ _ _ _ waitForStop removeTask =>
      [("waitForStop", waitForStop); ("removeTask", removeTask)]
  | OpResumeTask _ _ _ _ _ waitForStop => [("waitForStop", waitForStop)]
  | OpBackupVisionLog cycleIndex sensorTimestamps =>
      [("cycleIndex", cycleIndex);
       ("sensorTimestamps",
        if is_not_None sensorTimestamps then sensorTimestamps else VList [])]
  | OpGetLatestDetectionResultImages _ _ _ newerthantimestamp _ _ _ _ =>
      [("newerthantimestamp", newerthantimestamp)]
  | OpGetDetectionHistory timestamp => [("timestamp", timestamp)]
  | OpSetLogLevel componentLevels => [("componentLevels", componentLevels)]
  | _ => []
  end.

(** The optional arguments an operation writes under a guard, each with the
    value the caller passed ([VNone] when it was left at a [None] default). *)
Definition optional_args (op : operation) : list (string * value) :=
  match op with
  | OpStartObjectDetectionTask _ taskId locationName ignoreocclusion
      targetDynamicDetectorParameters detectionstarttimestamp locale
      maxnumfastdetection maxnumdetection stopOnNotNeedContainer _ numthreads
      cycleIndex ignorePlanningState ignoreDetectionFileUpdateChange
      sendVerificationPointCloud forceClearRegion detectionTriggerMode
      useLocationState _ =>
      [("taskId", taskId); ("locationName", locationName);
       ("ignoreocclusion", ignoreocclusion);
       ("targetDynamicDetectorParameters", targetDynamicDetectorParameters);
       ("detectionstarttimestamp", detectionstarttimestamp);
       ("locale", locale); ("maxnumfastdetection", maxnumfastdetection);
       ("maxnumdetection", maxnumdetection);
       ("stopOnNotNeedContainer", stopOnNotNeedContainer);
       ("numthreads", numthreads); ("cycleIndex", cycleIndex);
       ("ignorePlanningState", ignorePlanningState);
       ("ignoreDetectionFileUpdateChange", ignoreDetectionFileUpdateChange);
       ("sendVerificationPointCloud", sendVerificationPointCloud);
       ("forceClearRegion", forceClearRegion);
       ("detectionTriggerMode", detectionTriggerMode);
       ("useLocationState", useLocationState)]
  | OpStartContainerDetectionTask _ taskId locationName ignoreocclusion
      targetDynamicDetectorParameters detectionstarttimestamp locale
      numthreads cycleIndex ignorePlanningState stopOnNotNeedContainer
      useLocationState _ =>
      [("taskId", taskId); ("locationName", locationName);
       ("ignoreocclusion", ignoreocclusion);
       ("targetDynamicDetectorParameters", targetDynamicDetectorParameters);
       ("detectionstarttimestamp", detectionstarttimestamp);
       ("locale", locale); ("numthreads", numthreads);
       ("cycleIndex", cycleIndex);
       ("ignorePlanningState", ignorePlanningState);
       ("stopOnNotNeedContainer", stopOnNotNeedContainer);
       ("useLocationState", useLocationState)]
  | OpStopTask taskId taskIds taskType taskTypes cycleIndex _ _
  | OpResumeTask taskId taskIds taskType taskTypes cycleIndex _ =>
      [("taskId", taskId); ("taskIds", taskIds); ("taskType", taskType);
       ("taskTypes", taskTypes); ("cycleIndex", cycleIndex)]
  | OpStartVisualizePointCloudTask _ locationName sensorSelectionInfos
      pointsize ignoreocclusion newerthantimestamp request filteringsubsample
      filteringvoxelsize filteringstddev filteringnumnn =>
      [("locationName", locationName);
       ("sensorSelectionInfos", sensorSelectionInfos);
       ("pointsize", pointsize); ("ignoreocclusion", ignoreocclusion);
       ("newerthantimestamp", newerthantimestamp); ("request", request);
       ("filteringsubsample", filteringsubsample);
       ("filteringvoxelsize", filteringvoxelsize);
       ("filteringstddev", filteringstddev);
       ("filteringnumnn", filteringnumnn)]
  | OpGetLatestDetectedObjects taskId cycleIndex taskType
  | OpGetVisionStatistics taskId cycleIndex taskType
  | OpGetTaskStateService taskId cycleIndex taskType =>
      [("taskId", taskId); ("cycleIndex", cycleIndex); ("taskType", taskType)]
  | OpGetLatestDetectionResultImages taskId cycleIndex taskType _
      sensorSelectionInfo metadataOnly imageTypes limit =>
      [("taskId", taskId); ("cycleIndex", cycleIndex); ("taskType", taskType);
       ("sensorSelectionInfo", sensorSelectionInfo);
       ("metadataOnly", metadataOnly); ("imageTypes", imageTypes);
       ("limit", limit)]
  | _ => []
  end.


(** ** A fixed iteration order

    The order of the finite map itself, for the places where a concrete
    order is needed. *)
Module MapOrder.

#[global] Instance dict_order : DictOrder := {|
  keys_in_order d := (map_to_list d).*1;
  keys_in_order_perm d := reflexivity _
|}.

End MapOrder.

(** ** A small JSON decoder

    A decoder for the JSON subset of the examples below: objects, arrays,
    strings without escapes, integers, [true], [false] and [null]. It
    instantiates the [Json] interface where a concrete decoder is needed. *)
Module MiniJson.

Definition is_ws (c : ascii) : bool :=
  Ascii.eqb c " " || Ascii.eqb c (ascii_of_nat 10) || Ascii.eqb c (ascii_of_nat 13)
  || Ascii.eqb c (ascii_of_nat 9).

Fixpoint skip_ws (s : list ascii) : list ascii :=
  match s with
  | c :: r => if is_ws c then skip_ws r else s
  | [] => []
  end.

Definition is_quote (c : ascii) : bool := Ascii.eqb c (ascii_of_nat 34).

(** The characters up to the closing quote. *)
Fixpoint string_body (s : list ascii) : option (string * list ascii) :=
  match s with
  | [] => None
  | c :: r =>
      if is_quote c then Some (EmptyString, r)
      else match string_body r with
           | Some (t, r') => Some (String c t, r')
           | None => None
           end
  end.

Definition digit_of (c : ascii) : option Z :=
  let n := Z.of_nat (nat_of_ascii c) in
  if ((48 <=? n) && (n <=? 57))%Z then Some (n - 48)%Z else None.

Fixpoint digits (acc : Z) (s : list ascii) : Z * list ascii :=
  match s with
  | c :: r =>
      match digit_of c with
      | Some d => digits (10 * acc + d)%Z r
      | None => (acc, s)
      end
  | [] => (acc, [])
  end.

Definition literal (name : string) (v : value) (s : list ascii)
  : option (value * list ascii) :=
  let n := list_ascii_of_string name in
  if bool_decide (take (length n) s = n) then Some (v, drop (length n) s)
  else None.

Fixpoint parse_value (fuel : nat) (s : list ascii)
  : option (value * list ascii) :=
  match fuel with
  | O => None
  | S fuel =>
      match skip_ws s with
      | [] => None
      | c :: r =>
          if Ascii.eqb c "{" then
            match skip_ws r with
            | c' :: r' =>
                if Ascii.eqb c' "}" then Some (VDict ∅, r')
                else parse_members fuel (c' :: r') ∅
            | [] => None
            end
          else if Ascii.eqb c "[" then
            match skip_ws r with
            | c' :: r' =>
                if Ascii.eqb c' "]" then Some (VList [], r')
                else parse_elements fuel (c' :: r') []
            | [] => None
            end
          else if is_quote c then
            match string_body r with
            | Some (t, r') => Some (VStr t, r')
            | None => None
            end
          else if Ascii.eqb c "-" then
            match r with
            | d :: _ =>
                match digit_of d with
                | Some _ => let '(n, r') := digits 0 r in Some (VInt (- n), r')
                | None => None
                end
            | [] => None
            end
          else
            match digit_of c with
            | Some _ => let '(n, r') := digits 0 (c :: r) in Some (VInt n, r')
            | None =>
                match literal "true" (VBool true) (c :: r) with
                | Some x => Some x
                | None =>
                    match literal "false" (VBool false) (c :: r) with
                    | Some x => Some x
                    | None => literal "null" VNone (c :: r)
                    end
                end
            end
      end
  end
with parse_members (fuel : nat) (s : list ascii) (acc : dict)
  : option (value * list ascii) :=
  match fuel with
  | O => None
  | S fuel =>
      match skip_ws s with
      | q :: r =>
          if is_quote q then
            match string_body r with
            | Some (k, r1) =>
                match skip_ws r1 with
                | colon :: r2 =>
                    if Ascii.eqb colon ":" then
                      match parse_value fuel r2 with
                      | Some (v, r3) =>
                          let acc := <[k := v]> acc in
                          match skip_ws r3 with
                          | c :: r4 =>
                              if Ascii.eqb c "," then parse_members fuel r4 acc
                              else if Ascii.eqb c "}" then Some (VDict acc, r4)
                              else None
                          | [] => None
                          end
                      | None => None
                      end
                    else None
                | [] => None
                end
            | None => None
            end
          else None
      | [] => None
      end
  end
with parse_elements (fuel : nat) (s : list ascii) (acc : list value)
  : option (value * list ascii) :=
  match fuel with
  | O => None
  | S fuel =>
      match parse_value fuel s with
      | Some (v, r) =>
          match skip_ws r with
          | c :: r' =>
              if Ascii.eqb c "," then parse_elements fuel r' (acc ++ [v])
              else if Ascii.eqb c "]" then Some (VList (acc ++ [v]), r')
              else None
          | [] => None
          end
      | None => None
      end
  end.

Definition decode (s : string) : outcome value :=
  let cs := list_ascii_of_string s in
  match parse_value (S (length cs)) cs with
  | Some (v, rest) =>
      match skip_ws rest with
      | [] => Return v
      | _ :: _ => Raise (Exception "ValueError" "Extra data")
      end
  | None => Raise (Exception "ValueError" "No JSON object could be decoded")
  end.

#[global] Instance json : Json := {| loads := decode |}.

End MiniJson.

(** ** Scripted collaborators

    Collaborators whose answers are fixed in advance: a socket that hands out
    the replies of a script, and objects whose teardown methods return or
    raise as configured. They give the interfaces a concrete instance. *)
Module Scripted.

Record Context := mkContext {
  linger : Z;
  ctx_destroy_result : outcome unit;
  ctx_destroyed : bool
}.

Record Socket := mkSocket {
  endpoint : string * Z;
  waiting : bool;
  replies : list (outcome value);
  setdestroy_result : outcome unit;
  destroy_result : outcome unit;
  destroyed : bool
}.

Record Subscriber := mkSubscriber {
  sub_endpoint : string;
  published : list value;
  sub_destroy_result : outcome unit;
  sub_destroyed : bool
}.

#[global] Instance context : zmq.Context Context := {|
  zmq.new_Context := mkContext 0 (Return ()) false;
  zmq.set_linger c n := mkContext n (ctx_destroy_result c) (ctx_destroyed c);
  zmq.destroy c :=
    (ctx_destroy_result c,
     mkContext (linger c) (ctx_destroy_result c)
       (negb (raises (ctx_destroy_result c))))
|}.

#[global] Instance socket : zmqclient.ZmqClient Context Socket := {|
  zmqclient.ZmqClient_new host port ctx limit checkpreemptfn reusetimeout :=
    mkSocket (host, port) false [] (Return ()) (Return ()) false;
  zmqclient.SendCommand s command fireandforget timeout recvjson checkpreempt
      blockwait :=
    if fireandforget then
      (Return VNone,
       mkSocket (endpoint s) false (replies s) (setdestroy_result s)
         (destroy_result s) (destroyed s))
    else if bool_decide (blockwait = Some false) then
      (Return VNone,
       mkSocket (endpoint s) true (replies s) (setdestroy_result s)
         (destroy_result s) (destroyed s))
    else
      match replies s with
      | r :: rest =>
          (r, mkSocket (endpoint s) false rest (setdestroy_result s)
                (destroy_result s) (destroyed s))
      | [] => (Raise (TimeoutError "no reply"), s)
      end;
  zmqclient.ReceiveCommand s timeout recvjson :=
    match replies s with
    | r :: rest =>
        (r, mkSocket (endpoint s) false rest (setdestroy_result s)
              (destroy_result s) (destroyed s))
    | [] => (Raise (TimeoutError "no reply"), s)
    end;
  zmqclient.IsWaitingReply s := waiting s;
  zmqclient.Destroy s :=
    (destroy_result s,
     mkSocket (endpoint s) (waiting s) (replies s) (setdestroy_result s)
       (destroy_result s) (negb (raises (destroy_result s))));
  zmqclient.SetDestroy s := (setdestroy_result s, s)
|}.

#[global] Instance subscriber : zmqsubscriber.ZmqSubscriber Context Subscriber := {|
  zmqsubscriber.ZmqSubscriber_new url ctx := mkSubscriber url [] (Return ()) false;
  zmqsubscriber.SpinOnce b timeout checkpreemptfn :=
    match published b with
    | v :: rest =>
        (Return v,
         mkSubscriber (sub_endpoint b) rest (sub_destroy_result b)
           (sub_destroyed b))
    | [] => (Return VNone, b)
    end;
  zmqsubscriber.Destroy b :=
    (sub_destroy_result b,
     mkSubscriber (sub_endpoint b) (published b) (sub_destroy_result b)
       (negb (raises (sub_destroy_result b))))
|}.

(** A client whose sockets will answer with [command_replies] and
    [configuration_replies], with caller identifier [callerid]. *)
Definition client (callerid : value)
    (command_replies configuration_replies : list (outcome value))
    (is_waiting : bool)
  : @VisionControllerClient Context Socket Subscriber :=
  let ctx := mkContext 100 (Return ()) false in
  mkClient (Some ctx) (Some ctx) "127.0.0.1" 7004 7006 7007
    (Some (mkSocket ("127.0.0.1", 7004%Z) is_waiting command_replies
             (Return ()) (Return ()) false))
    (Some (mkSocket ("127.0.0.1", 7006%Z) false configuration_replies
             (Return ()) (Return ()) false))
    callerid None None.

Definition world (c : @VisionControllerClient Context Socket Subscriber)
  : @World Context Socket Subscriber :=
  mkWorld c [] [].

End Scripted.

(** ** Expected failures, in the words of the specification *)

(** The failure the specification prescribes for a structured response whose
    ['error'] entry is [err]: a typed error carrying [desc] and [type] when
    [err] is a mapping, an unknown-error kind embedding [err] otherwise. *)
Definition spec_error_failure (err : value) : pyexn :=
  match err with
  | VDict e =>
      VisionControllerClientError (MsgValue (dict_get e "desc" (VStr "")))
        (dict_get e "type" (VStr ""))
  | _ =>
      VisionControllerClientError
        (MsgPercent "Got unknown error from vision manager: %r"
           (ArgSingle (ArgValue err)))
        (VStr "unknownerror")
  end.

(** The empty-response failure naming [command] and showing [response]. *)
Definition spec_empty_failure (command response : value) : pyexn :=
  VisionControllerClientError
    (MsgPercent
       "Vision command %(command)s failed with empty response %(response)r"
       (ArgMapping [("command", ArgValue command);
                    ("response", ArgValue response)]))
    (VStr "emptyresponseerror").

(** What [_WaitForResponse] makes of the outcome of the receive. *)
Definition wait_outcome {C S B : Type} `{!Json}
    (c : @VisionControllerClient C S B) (recvjson : bool)
    (timeout command : value) (r : outcome value) : outcome value :=
  match r with
  | Return response => _ProcessResponse response command recvjson
  | Raise e =>
      if is_TimeoutError e then
        percent_f timeout;;
        Raise (VisionControllerTimeoutError
                 (MsgPercent
                    "Timed out after %.03f seconds to get response message %s from %s:%d: %s"
                    (ArgTuple [ArgValue timeout;
                               ArgValue (commandName_of command);
                               ArgValue (VStr (hostname c));
                               ArgValue (VInt (commandport c));
                               ArgExn e]))
                 (VStr "timeout"))
      else if is_Exception e then
        Raise (VisionControllerClientError
                 (MsgPercent
                    "Problem receiving response from the last vision manager async call %s: %s"
                    (ArgTuple [ArgValue (commandName_of command); ArgExn e]))
                 (VStr "unknownerror"))
      else Raise e
  end.


(** The command name a failure of the wait carries, in the words of the
    specification: the name the command holds under ["command"] when it is
    known, that is when the command is a mapping with a non-empty name, and
    the empty string otherwise. *)
Definition known_command_name (command : value) : value :=
  match command with
  | VDict d =>
      match d !! "command" with
      | Some name => if truthy name then name else VStr ""
      | None => VStr ""
      end
  | _ => VStr ""
  end.

(** The timeout failure the specification prescribes: kind [timeout],
    carrying the timeout, the command name, the host and the port of the
    command socket, and the cause. *)
Definition spec_timeout_failure (timeout command : value) (host : string)
    (port : Z) (cause : pyexn) : pyexn :=
  VisionControllerTimeoutError
    (MsgPercent
       "Timed out after %.03f seconds to get response message %s from %s:%d: %s"
       (ArgTuple [ArgValue timeout; ArgValue (known_command_name command);
                  ArgValue (VStr host); ArgValue (VInt port); ArgExn cause]))
    (VStr "timeout").

(** The failure of a wait whose receive failed otherwise: kind
    [unknownerror], carrying the command name and the cause. *)
Definition spec_receive_failure (command : value) (cause : pyexn) : pyexn :=
  VisionControllerClientError
    (MsgPercent
       "Problem receiving response from the last vision manager async call %s: %s"
       (ArgTuple [ArgValue (known_command_name command); ArgExn cause]))
    (VStr "unknownerror").

(** Does the text [s] begin with an opening brace and end with a closing
    one? What the raw-response test of [_ProcessResponse] decides on a
    string. *)
Definition braced (s : string) : bool :=
  match String.get 0 s, String.get (String.length s - 1) s with
  | Some a, Some b => Ascii.eqb a "{" && Ascii.eqb b "}"
  | _, _ => false
  end.


(** ** Concrete inputs used to exercise the statements below *)

Module Examples.

(** The raw text of a one-entry JSON object, [result] mapped to 1. *)
Definition result_text : string :=
  "{" ++ dquote ++ "result" ++ dquote ++ ":1}".

(** The raw text of a JSON object whose only entry is an error string. *)
Definition error_text : string :=
  "{" ++ dquote ++ "error" ++ dquote ++ ":" ++ dquote ++ "oops" ++ dquote ++ "}".

(** A subscriber whose [Destroy] raises. *)
Definition failing_subscriber : Scripted.Subscriber :=
  Scripted.mkSubscriber "tcp://127.0.0.1:7007" []
    (Raise (Exception "RuntimeError" "boom")) false.

(** A client that has subscribed to the published state through
    [failing_subscriber]; its sockets and its context release normally. *)
Definition subscribed_client
  : @VisionControllerClient Scripted.Context Scripted.Socket
      Scripted.Subscriber :=
  set_subscriber (Some failing_subscriber)
    (Scripted.client VNone [] [] false).

(** A structured response reporting a typed error. *)
Definition typed_error_response : dict :=
  {[ "error" := VDict (<["desc" := VStr "X"]> {[ "type" := VStr "Y" ]}) ]}.

(** A client whose two sockets will answer with [typed_error_response]. *)
Definition refused_client
  : @VisionControllerClient Scripted.Context Scripted.Socket
      Scripted.Subscriber :=
  Scripted.client VNone [Return (VDict typed_error_response)]
    [Return (VDict typed_error_response)] false.

(** A client with a deferred call outstanding whose receive will produce the
    first outcome of [r], the transport's timeout when [r] is empty. *)
Definition waiting_client (r : list (outcome value))
  : @VisionControllerClient Scripted.Context Scripted.Socket
      Scripted.Subscriber :=
  Scripted.client VNone r [] true.

(** A transport failure that is not a timeout. *)
Definition connection_reset : pyexn := Exception "IOError" "connection reset".

(** A client configured with the empty string as caller identifier. *)
Definition anonymous_client
  : @VisionControllerClient Scripted.Context Scripted.Socket
      Scripted.Subscriber :=
  Scripted.client (VStr "") [Return (VDict {[ "ok" := VInt 1 ]})]
    [Return (VDict {[ "ok" := VInt 1 ]})] false.

End Examples.

(** The reference [Destroy] leaves behind for a resource whose release gave
    [r]: cleared after a release that returned, kept after one that raised. *)
Definition kept {A X} (r : outcome A) (x : X) : option X :=
  if raises r then Some x else None.

(** What [Destroy] logs for the release of the resource named [what] that
    gave [r]. *)
Definition failure_log {A} (what : string) (r : outcome A) : list LogRecord :=
  match r with
  | Raise e => [mkLog "exception" ("problem destroying " ++ what ++ ": %s")
                  [ArgExn e]]
  | Return _ => []
  end.

(** Does [except Exception] catch what [r] raises, if it raises? *)
Definition catchable {A} (r : outcome A) : bool :=
  match r with Raise e => is_Exception e | Return _ => true end.

(** The dictionary [vminitparams] an operation merges into its payload right
    after the literal, and the keyword arguments [**kwargs] it merges last;
    empty for an operation that takes none. *)
Definition vminitparams_of (op : operation) : dict :=
  match op with
  | OpStartObjectDetectionTask vm _ _ _ _ _ _ _ _ _ _ _ _ _ _ _ _ _ _ _
  | OpStartContainerDetectionTask vm _ _ _ _ _ _ _ _ _ _ _ _
  | OpStartVisualizePointCloudTask vm _ _ _ _ _ _ _ _ _ _ => vm
  | _ => ∅
  end.

Definition kwargs_of (op : operation) : dict :=
  match op with
  | OpStartObjectDetectionTask _ _ _ _ _ _ _ _ _ _ _ _ _ _ _ _ _ _ _ kw
  | OpStartContainerDetectionTask _ _ _ _ _ _ _ _ _ _ _ _ kw => kw
  | _ => ∅
  end.

(** ** Further concrete clients *)

Module Scenarios.

Abbreviation Client :=
  (@VisionControllerClient Scripted.Context Scripted.Socket
     Scripted.Subscriber).

(** A braced text that is not JSON. *)
Definition not_json : string := "{oops}".

(** A client configured with a caller identifier. *)
Definition tagged_client : Client :=
  Scripted.client (VStr "cell1") [] [] false.

(** A client built by [__init__] around a context handed in by the caller. *)
Definition borrowing_client : Client :=
  __init__ "127.0.0.1" 7004 (Some (Scripted.mkContext 0 (Return ()) false))
    None (VInt 40) VNone.

(** A socket that raises [e] when it is closed, and one that raises [e]
    when it is told that the teardown has started. *)
Definition stuck_socket (port : Z) (e : pyexn) : Scripted.Socket :=
  Scripted.mkSocket ("127.0.0.1", port) false [] (Return ()) (Raise e) false.

Definition deaf_socket (port : Z) (e : pyexn) : Scripted.Socket :=
  Scripted.mkSocket ("127.0.0.1", port) false [] (Raise e) (Return ()) false.

(** A client with command socket [s]; the rest releases normally. *)
Definition client_with_commandsocket (s : Scripted.Socket) : Client :=
  set_commandsocket (Some s) (Scripted.client VNone [] [] false).

(** A client whose deferred command will be answered with the empty text. *)
Definition deferred_client : Client :=
  Scripted.client VNone [Return (VStr "")] [] false.

(** A client subscribed to a state stream that publishes [texts]. *)
Definition polling_client (texts : list value) : Client :=
  set_subscriber
    (Some (Scripted.mkSubscriber "tcp://127.0.0.1:7007" texts (Return ())
             false))
    (Scripted.client VNone [] [] false).

(** A payload with merged dictionaries: [vminitparams] and [**kwargs] both
    have an entry ["mode"], and [ignoreocclusion] is the number 1. *)
Definition merging_operation : operation :=
  OpStartContainerDetectionTask
    (<["mode" := VStr "slow"]> {[ "region" := VStr "bin1" ]})
    VNone VNone (VInt 1) VNone VNone VNone VNone VNone VNone VNone VNone
    {[ "mode" := VStr "fast" ]}.

End Scenarios.

(** The socket an operation sends its payload over: the configuration socket
    for the operations that go through [_SendConfiguration], the command
    socket for those that go through [_ExecuteCommand]. *)
Definition channel_of (op : operation) : Channel :=
  match op with
  | OpPing | OpSetLogLevel _ | OpCancel | OpQuit
  | OpGetTaskStateService _ _ _ | OpGetPublishedStateService =>
      ConfigurationChannel
  | _ => CommandChannel
  end.

Section Perform.
Context {C S B : Type}.
Context `{!zmq.Context C, !zmqclient.ZmqClient C S,
          !zmqsubscriber.ZmqSubscriber C B, !Json, !DictOrder}.

(** The method call an operation stands for. The arguments that do not reach
    the payload are given here: [timeout], and [fireandforget] and
    [blockwait] for the methods that take them; the deprecated
    [waitForTrigger] is left at its default. *)
Definition perform (op : operation) (fireandforget blockwait : bool)
    (timeout : value) : @M C S B value :=
  match op with
  | OpStartObjectDetectionTask vm a1 a2 a3 a4 a5 a6 a7 a8 a9 a10 a11 a12 a13
      a14 a15 a16 a17 a18 kw =>
      StartObjectDetectionTask vm a1 a2 a3 a4 a5 a6 a7 a8 a9 timeout a10 a11
        a12 a13 a14 a15 a16 (VBool false) a17 a18 kw
  | OpStartContainerDetectionTask vm a1 a2 a3 a4 a5 a6 a7 a8 a9 a10 a11 kw =>
      StartContainerDetectionTask vm a1 a2 a3 a4 a5 a6 timeout a7 a8 a9 a10
        a11 kw
  | OpStopTask a1 a2 a3 a4 a5 a6 a7 =>
      StopTask a1 a2 a3 a4 a5 a6 a7 fireandforget timeout
  | OpResumeTask a1 a2 a3 a4 a5 a6 =>
      ResumeTask a1 a2 a3 a4 a5 a6 fireandforget timeout
  | OpStartVisualizePointCloudTask vm a1 a2 a3 a4 a5 a6 a7 a8 a9 a10 =>
      StartVisualizePointCloudTask vm a1 a2 a3 a4 a5 a6 timeout a7 a8 a9 a10
  | OpBackupVisionLog a1 a2 => BackupVisionLog a1 a2 fireandforget timeout
  | OpGetLatestDetectedObjects a1 a2 a3 =>
      GetLatestDetectedObjects a1 a2 a3 timeout
  | OpGetLatestDetectionResultImages a1 a2 a3 a4 a5 a6 a7 a8 =>
      GetLatestDetectionResultImages a1 a2 a3 a4 a5 a6 a7 a8 blockwait timeout
  | OpGetDetectionHistory a1 => GetDetectionHistory a1 timeout
  | OpGetVisionStatistics a1 a2 a3 => GetVisionStatistics a1 a2 a3 timeout
  | OpPing => Ping timeout
  | OpSetLogLevel a1 => SetLogLevel a1 timeout
  | OpCancel => Cancel timeout
  | OpQuit => Quit timeout
  | OpGetTaskStateService a1 a2 a3 => GetTaskStateService a1 a2 a3 timeout
  | OpGetPublishedStateService => GetPublishedStateService timeout
  end.

End Perform.

(** * Properties *)

(** ** Response validation *)

Section ValidationFacts.
Context `{!Json}.

Lemma _HandleError_raises (d : dict) (err : value) :
  d !! "error" = Some err ->
  _HandleError (VDict d) = Raise (spec_error_failure err).
Proof.
  intros Herr. unfold _HandleError. cbn. rewrite Herr. cbn.
  destruct err; reflexivity.
Qed.

Lemma _ProcessResponse_structured_error (d : dict) (err command : value) :
  d !! "error" = Some err ->
  _ProcessResponse (VDict d) command true = Raise (spec_error_failure err).
Proof.
  intros Herr. unfold _ProcessResponse, py_contains.
  rewrite bool_decide_eq_true_2 by (rewrite Herr; eauto).
  cbn [mbind outcome_bind]. rewrite (_HandleError_raises d err Herr).
  reflexivity.
Qed.

Lemma _ProcessResponse_structured_ok (d : dict) (command : value) :
  d !! "error" = None ->
  _ProcessResponse (VDict d) command true = Return (VDict d).
Proof.
  intros Herr. unfold _ProcessResponse. cbn.
  rewrite bool_decide_eq_false_2; [reflexivity|].
  rewrite Herr. intros [? ?]; discriminate.
Qed.

End ValidationFacts.

(** ** Dispatch *)

Section ClientFacts.
Context {C S B : Type}.
Context `{!zmq.Context C, !zmqclient.ZmqClient C S,
          !zmqsubscriber.ZmqSubscriber C B, !Json}.

Implicit Types (w : @World C S B) (s : S).

(** A call on a socket that is there is recorded, made, and leaves the
    socket in its new state. *)
Lemma on_socket_run {A} ch call (method : S -> outcome A * S) w s r s' :
  socket_of ch (self w) = Some s ->
  method s = (r, s') ->
  on_socket ch call method w =
    (r, mkWorld (set_socket ch (Some s') (self w)) (logged w)
          (calls w ++ [call])).
Proof.
  intros Hs Hm. unfold on_socket, mbind, M_bind, get_self. cbn.
  rewrite Hs. unfold record_call, modify_self, lift. cbn. rewrite Hm. cbn.
  destruct r; reflexivity.
Qed.

Lemma set_socket_same ch s (c : @VisionControllerClient C S B) :
  socket_of ch c = Some s -> set_socket ch (Some s) c = c.
Proof.
  destruct c, ch; cbn; intros ->; reflexivity.
Qed.


Lemma _ExecuteCommand_run command ff timeout rj cp bw w s r s' :
  _commandsocket (self w) = Some s ->
  zmqclient.SendCommand s (with_callerid (self w) command) ff timeout
    (Some rj) cp (Some bw) = (Return r, s') ->
  _ExecuteCommand command ff timeout rj cp bw w =
    (if bw && negb ff
     then _ProcessResponse r (VDict (with_callerid (self w) command)) rj
     else Return r,
     mkWorld (set_commandsocket (Some s') (self w)) (logged w)
       (calls w ++ [CallSendCommand CommandChannel
                      (with_callerid (self w) command) ff timeout (Some rj)
                      cp (Some bw)])).
Proof.
  intros Hs Hsend. unfold _ExecuteCommand.
  unfold mbind at 1. unfold M_bind at 1. unfold get_self at 1.
  unfold mbind at 1. unfold M_bind at 1.
  erewrite on_socket_run; [|exact Hs|exact Hsend].
  destruct (bw && negb ff); reflexivity.
Qed.

Lemma _SendConfiguration_run configuration ff timeout cp rj w s r s' :
  _configurationsocket (self w) = Some s ->
  zmqclient.SendCommand s (with_callerid (self w) configuration) ff timeout
    None cp None = (Return r, s') ->
  _SendConfiguration configuration ff timeout cp rj w =
    (if negb ff
     then _ProcessResponse r (VDict (with_callerid (self w) configuration)) rj
     else Return r,
     mkWorld (set_configurationsocket (Some s') (self w)) (logged w)
       (calls w ++ [CallSendCommand ConfigurationChannel
                      (with_callerid (self w) configuration) ff timeout None
                      cp None])).
Proof.
  intros Hs Hsend. unfold _SendConfiguration.
  unfold mbind at 1. unfold M_bind at 1. unfold get_self at 1.
  unfold mbind at 1. unfold M_bind at 1.
  erewrite on_socket_run; [|exact Hs|exact Hsend].
  destruct (negb ff); reflexivity.
Qed.

(** The name [_WaitForResponse] computes is the name of the command when it
    is known. *)
Lemma commandName_of_known (command : value) :
  commandName_of command = known_command_name command.
Proof.
  destruct command as [| | | | | |d]; try reflexivity.
  unfold commandName_of, known_command_name, dict_get.
  by destruct (d !! "command").
Qed.

Lemma _WaitForResponse_not_waiting recvjson timeout command w s :
  _commandsocket (self w) = Some s ->
  zmqclient.IsWaitingReply s = false ->
  _WaitForResponse recvjson timeout command w =
    (Raise (VisionControllerClientError
              (MsgPercent
                 ("Waiting on command " ++ dquote ++ "%(commandName)s" ++ dquote
                  ++ " when wait signal is not on")
                 (ArgMapping
                    [("commandName", ArgValue (commandName_of command))]))
              (VStr "invalidwait")),
     mkWorld (self w) (logged w) (calls w ++ [CallIsWaitingReply])).
Proof.
  intros Hs Hw. unfold _WaitForResponse.
  unfold mbind at 1. unfold M_bind at 1.
  erewrite on_socket_run; [|exact Hs|reflexivity].
  rewrite Hw. cbn [negb]. unfold raise.
  rewrite (set_socket_same CommandChannel s (self w) Hs). reflexivity.
Qed.

Lemma _WaitForResponse_receive recvjson timeout command w s r s' :
  _commandsocket (self w) = Some s ->
  zmqclient.IsWaitingReply s = true ->
  zmqclient.ReceiveCommand s timeout recvjson = (r, s') ->
  _WaitForResponse recvjson timeout command w =
    (wait_outcome (self w) recvjson timeout command r,
     mkWorld (set_commandsocket (Some s') (self w)) (logged w)
       (calls w ++ [CallIsWaitingReply; CallReceiveCommand timeout recvjson])).
Proof.
  intros Hs Hw Hrecv. unfold _WaitForResponse.
  unfold mbind at 1. unfold M_bind at 1.
  erewrite on_socket_run; [|exact Hs|reflexivity].
  rewrite Hw. cbn [negb].
  rewrite (set_socket_same CommandChannel s (self w) Hs).
  unfold mbind at 1. unfold M_bind at 1. unfold get_self at 1.
  cbn [self logged calls].
  unfold mbind at 1. unfold M_bind at 1. unfold try_except.
  erewrite on_socket_run; [|exact Hs|exact Hrecv].
  cbn [self logged calls]. rewrite <- app_assoc. cbn [app].
  unfold wait_outcome.
  destruct r as [v|e]; [reflexivity|].
  destruct (is_TimeoutError e);
    [destruct (percent_f timeout) as [[]|]; reflexivity|].
  destruct (is_Exception e); reflexivity.
Qed.

End ClientFacts.

(** ** The claims about dispatch and waiting *)

Section DispatchClaims.
Context {C S B : Type}.
Context `{!zmq.Context C, !zmqclient.ZmqClient C S,
          !zmqsubscriber.ZmqSubscriber C B, !Json}.

Implicit Types (w : @World C S B) (s : S).

(** C1. A structured (pre-decoded) response mapping that contains an
    ['error'] key fails validation: with a typed error carrying the [desc]
    and [type] entries of the error value (each defaulting to the empty
    string) when that value is a mapping, with the unknown-error kind whose
    description embeds the raw error value otherwise. The same holds when
    the response arrives through the command path and through the
    configuration path. *)
Theorem structured_error_response_fails
    (d : dict) (err command : value) (payload configuration : dict)
    (timeout : value) (checkpreempt : bool) w s1 s1' s2 s2' :
  d !! "error" = Some err ->
  _commandsocket (self w) = Some s1 ->
  zmqclient.SendCommand s1 (with_callerid (self w) payload) false timeout
    (Some true) checkpreempt (Some true) = (Return (VDict d), s1') ->
  _configurationsocket (self w) = Some s2 ->
  zmqclient.SendCommand s2 (with_callerid (self w) configuration) false
    timeout None checkpreempt None = (Return (VDict d), s2') ->
  _ProcessResponse (VDict d) command true = Raise (spec_error_failure err)
  /\ (_ExecuteCommand payload false timeout true checkpreempt true w).1
     = Raise (spec_error_failure err)
  /\ (_SendConfiguration configuration false timeout checkpreempt true w).1
     = Raise (spec_error_failure err).
Proof.
  intros Herr Hs1 Hsend1 Hs2 Hsend2. split; [|split].
  - by apply _ProcessResponse_structured_error.
  - rewrite (_ExecuteCommand_run _ _ _ _ _ _ _ _ _ _ Hs1 Hsend1). cbn [fst andb negb].
    by apply _ProcessResponse_structured_error.
  - rewrite (_SendConfiguration_run _ _ _ _ _ _ _ _ _ Hs2 Hsend2). cbn [fst andb negb].
    by apply _ProcessResponse_structured_error.
Qed.

(** C2. [_ExecuteCommand] validates the response exactly when the call is
    blocking and not fire-and-forget: a fire-and-forget call sends and returns
    what the transport returned, a deferred call ([blockwait] false) sends and
    returns the transport's acknowledgement, and any other call returns the
    validated response. In each case exactly one send is made. *)
Theorem execute_validates_iff_blocking
    (command : dict) (fireandforget : bool) (timeout : value)
    (recvjson checkpreempt blockwait : bool) w s (r : value) s' :
  _commandsocket (self w) = Some s ->
  zmqclient.SendCommand s (with_callerid (self w) command) fireandforget
    timeout (Some recvjson) checkpreempt (Some blockwait) = (Return r, s') ->
  let sent := with_callerid (self w) command in
  let run := _ExecuteCommand command fireandforget timeout recvjson
               checkpreempt blockwait w in
  calls run.2 =
    (calls w ++ [CallSendCommand CommandChannel sent fireandforget timeout
                   (Some recvjson) checkpreempt (Some blockwait)])%list
  /\ (fireandforget = true -> run.1 = Return r)
  /\ (fireandforget = false -> blockwait = false -> run.1 = Return r)
  /\ (fireandforget = false -> blockwait = true ->
      run.1 = _ProcessResponse r (VDict sent) recvjson).
Proof.
  intros Hs Hsend sent run. subst run sent.
  rewrite (_ExecuteCommand_run _ _ _ _ _ _ _ _ _ _ Hs Hsend). cbn.
  repeat split.
  - intros ->. by rewrite andb_false_r.
  - by intros -> ->.
  - by intros -> ->.
Qed.

(** C3. Whatever the timeout, waiting while the command socket is not
    marked as awaiting a reply fails with the [invalidwait] kind; the only
    call made on the socket is the query of the flag, no receive. *)
Theorem wait_without_pending_call_is_invalid
    (recvjson : bool) (timeout command : value) w s :
  _commandsocket (self w) = Some s ->
  zmqclient.IsWaitingReply s = false ->
  let run := _WaitForResponse recvjson timeout command w in
  (exists msg, run.1 = Raise (VisionControllerClientError msg (VStr "invalidwait")))
  /\ calls run.2 = (calls w ++ [CallIsWaitingReply])%list
  /\ self run.2 = self w.
Proof.
  intros Hs Hw run. subst run.
  rewrite (_WaitForResponse_not_waiting _ _ _ _ _ Hs Hw). cbn.
  split; [eauto|done].
Qed.

(** C4. When the receive raises the transport's timeout, what the wait does
    depends on the timeout it was given, which the message renders with
    [%.03f]. For a timeout that converts to a float the wait fails with
    [VisionControllerTimeoutError] of kind [timeout], a kind different from
    the other kinds the client raises, carrying the timeout, the command name
    when known, the host and the port of the command socket and the cause.
    For [None], the default of [_WaitForResponse], building the message
    fails and the wait raises [TypeError] instead; for an integer too large
    for a float it raises [OverflowError]. *)
Theorem wait_timeout_failure_depends_on_duration
    (recvjson : bool) (timeout command : value) w s (detail : string) s' :
  _commandsocket (self w) = Some s ->
  zmqclient.IsWaitingReply s = true ->
  zmqclient.ReceiveCommand s timeout recvjson
    = (Raise (TimeoutError detail), s') ->
  let result := (_WaitForResponse recvjson timeout command w).1 in
  ((exists q, timeout = VFloat q) \/ (exists b, timeout = VBool b)
   \/ (exists n, timeout = VInt n /\ (Z.abs n < 2 ^ 1024 - 2 ^ 970)%Z) ->
   result = Raise (spec_timeout_failure timeout command (hostname (self w))
                     (commandport (self w)) (TimeoutError detail))
   /\ errortype_of (spec_timeout_failure timeout command (hostname (self w))
                      (commandport (self w)) (TimeoutError detail))
      = Some (VStr "timeout")
   /\ VStr "timeout" <> VStr "invalidwait"
   /\ VStr "timeout" <> VStr "unknownerror"
   /\ VStr "timeout" <> VStr "emptyresponseerror")
  /\ (timeout = VNone -> result = Raise (TypeError "must be real number"))
  /\ (forall n, timeout = VInt n -> (2 ^ 1024 - 2 ^ 970 <= Z.abs n)%Z ->
      result = Raise (OverflowError "int too large to convert to float")).
Proof.
  intros Hs Hw Hrecv result. subst result.
  rewrite (_WaitForResponse_receive _ _ _ _ _ _ _ Hs Hw Hrecv).
  cbn [fst wait_outcome is_TimeoutError]. rewrite commandName_of_known.
  split; [|split].
  - intros [[q ->] | [[b ->] | (n & -> & Hn)]]; cbn [percent_f];
      try (repeat split; discriminate).
    unfold float_overflow. rewrite (proj2 (Z.leb_gt _ _) Hn).
    repeat split; discriminate.
  - by intros ->.
  - intros n -> Hn. cbn [percent_f]. unfold float_overflow.
    by rewrite (proj2 (Z.leb_le _ _) Hn).
Qed.

(** C5, as amended. When the receive raises any failure other than a
    timeout, the wait fails with [VisionControllerClientError] of kind
    [unknownerror], the kind also used for an unrecognised ['error'] value;
    the failure carries the underlying cause (and the command name when
    known). *)
Theorem wait_other_failure_is_unknownerror
    (recvjson : bool) (timeout command : value) w s (e : pyexn) s' :
  _commandsocket (self w) = Some s ->
  zmqclient.IsWaitingReply s = true ->
  zmqclient.ReceiveCommand s timeout recvjson = (Raise e, s') ->
  is_Exception e = true ->
  is_TimeoutError e = false ->
  (_WaitForResponse recvjson timeout command w).1
  = Raise (spec_receive_failure command e)
  /\ errortype_of (spec_receive_failure command e)
     = errortype_of (spec_error_failure (VStr "oops")).
Proof.
  intros Hs Hw Hrecv Hexn Hnt.
  rewrite (_WaitForResponse_receive _ _ _ _ _ _ _ Hs Hw Hrecv). cbn.
  rewrite Hnt, Hexn, commandName_of_known. done.
Qed.

End DispatchClaims.

(** ** Raw responses *)

Section RawFacts.
Context `{!Json}.

Lemma string_get_lt (s : string) (n : nat) :
  (n < String.length s)%nat -> exists c, String.get n s = Some c.
Proof.
  revert n. induction s as [|a s IH]; intros n Hn; cbn in Hn; [lia|].
  destruct n as [|n]; cbn; [eauto|]. apply IH. lia.
Qed.

Lemma eqb_singleton (c d : ascii) :
  String.eqb (String c EmptyString) (String d EmptyString) = Ascii.eqb c d.
Proof. cbn. by destruct (Ascii.eqb c d). Qed.

Lemma looks_like_json_text (s : string) :
  looks_like_json (VStr s) = Return (braced s).
Proof.
  unfold looks_like_json, braced, py_len. cbn [mbind outcome_bind].
  destruct s as [|a s]; [reflexivity|].
  set (t := String a s).
  assert (Hlen : String.length t = Datatypes.S (String.length s)) by reflexivity.
  replace (0 <? Z.of_nat (String.length t))%Z with true
    by (symmetry; apply Z.ltb_lt; lia).
  unfold py_index. cbn [Z.ltb Z.compare].
  replace ((0 <=? 0)%Z && (0 <? Z.of_nat (String.length t))%Z) with true
    by (symmetry; apply andb_true_iff; split;
        [reflexivity | apply Z.ltb_lt; lia]).
  change (Z.to_nat 0) with 0%nat.
  change (String.get 0 t) with (Some a).
  cbn [mbind outcome_bind eq_str]. rewrite eqb_singleton.
  destruct (Ascii.eqb a "{") eqn:Ha.
  - replace ((-1 + Z.of_nat (String.length t) <? 0)%Z) with false
      by (symmetry; apply Z.ltb_ge; lia).
    change ((-1 <? 0)%Z) with true. cbn iota.
    replace ((0 <=? -1 + Z.of_nat (String.length t))%Z
             && (-1 + Z.of_nat (String.length t) <? Z.of_nat (String.length t))%Z)
      with true
      by (symmetry; apply andb_true_iff; split;
          [apply Z.leb_le | apply Z.ltb_lt]; lia).
    replace (Z.to_nat (-1 + Z.of_nat (String.length t)))
      with (String.length t - 1)%nat by lia.
    destruct (string_get_lt t (String.length t - 1)) as [b Hb]; [lia|].
    rewrite Hb. cbn [mbind outcome_bind eq_str]. by rewrite eqb_singleton.
  - by destruct (String.get (String.length t - 1) t).
Qed.

Lemma _ProcessResponse_raw_plain (s : string) (command : value) :
  s <> "" -> braced s = false ->
  _ProcessResponse (VStr s) command false = Return (VStr s).
Proof.
  intros Hne Hb. unfold _ProcessResponse.
  rewrite looks_like_json_text, Hb. cbn [mbind outcome_bind py_len].
  destruct s as [|a s]; [done|]. reflexivity.
Qed.

Lemma _ProcessResponse_raw_empty (command : value) :
  _ProcessResponse (VStr "") command false
  = Raise (spec_empty_failure command (VStr "")).
Proof. reflexivity. Qed.

Lemma _ProcessResponse_raw_decoded (s : string) (d : dict) (command : value) :
  braced s = true -> loads s = Return (VDict d) ->
  _ProcessResponse (VStr s) command false =
    match d !! "error" with
    | Some err => Raise (spec_error_failure err)
    | None =>
        if (size d =? 0)%nat then Raise (spec_empty_failure command (VDict d))
        else Return (VDict d)
    end.
Proof.
  intros Hb Hl. unfold _ProcessResponse.
  rewrite looks_like_json_text, Hb. cbn [mbind outcome_bind json_loads].
  rewrite Hl. cbn [mbind outcome_bind py_contains].
  destruct (d !! "error") as [err|] eqn:Herr.
  - rewrite bool_decide_eq_true_2 by eauto.
    by rewrite (_HandleError_raises d err Herr).
  - rewrite bool_decide_eq_false_2 by (intros [? ?]; discriminate).
    cbn [mbind outcome_bind py_len].
    destruct (size d) eqn:Hsz; reflexivity.
Qed.

End RawFacts.

(** ** The claims about raw responses *)

Section RawClaims.
Context `{!Json}.

(** C6, as stated, at the raw response consisting of an opening and a closing
    brace: it is non-empty and braced, it decodes to a mapping without an
    ['error'] key, and yet validation does not return the decoded mapping; it
    fails. *)
Lemma braced_empty_object_is_not_returned :
  braced "{}" = true
  /\ MiniJson.decode "{}" = Return (VDict ∅)
  /\ (∅ : dict) !! "error" = None
  /\ @_ProcessResponse MiniJson.json (VStr "{}") VNone false
     <> Return (VDict ∅).
Proof.
  split; [reflexivity|]. split; [by vm_compute|]. split; [reflexivity|].
  by vm_compute.
Qed.

(** C6, amended. For a raw response [s]: when [s] is braced and decodes to a
    mapping [d], an ['error'] entry of [d] fails validation as for a
    structured response, a non-empty [d] without one is returned, and an empty
    [d] fails with the empty-response kind; the empty text fails with the
    empty-response kind naming the command; any other text is returned
    unchanged. *)
Theorem raw_response_validation (s : string) (command : value) :
  (forall d err, braced s = true -> loads s = Return (VDict d) ->
     d !! "error" = Some err ->
     _ProcessResponse (VStr s) command false = Raise (spec_error_failure err))
  /\ (forall d, braced s = true -> loads s = Return (VDict d) ->
        d !! "error" = None -> d <> ∅ ->
        _ProcessResponse (VStr s) command false = Return (VDict d))
  /\ (forall d, braced s = true -> loads s = Return (VDict d) -> d = ∅ ->
        _ProcessResponse (VStr s) command false
        = Raise (spec_empty_failure command (VDict d)))
  /\ (s = "" ->
        _ProcessResponse (VStr s) command false
        = Raise (spec_empty_failure command (VStr s)))
  /\ (s <> "" -> braced s = false ->
        _ProcessResponse (VStr s) command false = Return (VStr s)).
Proof.
  split; [|split; [|split; [|split]]].
  - intros d err Hb Hl He.
    by rewrite (_ProcessResponse_raw_decoded s d command Hb Hl), He.
  - intros d Hb Hl He Hne.
    rewrite (_ProcessResponse_raw_decoded s d command Hb Hl), He.
    destruct (size d) eqn:Hsz; [|reflexivity].
    by apply map_size_empty_iff in Hsz.
  - intros d Hb Hl ->.
    by rewrite (_ProcessResponse_raw_decoded s ∅ command Hb Hl).
  - intros ->. apply _ProcessResponse_raw_empty.
  - apply _ProcessResponse_raw_plain.
Qed.

(** C9. The raw response made of an opening and a closing brace is decoded by
    the braces rule to the empty mapping, in which no ['error'] key is found,
    and validation then fails with the empty-response kind. *)
Theorem empty_object_text_is_empty_response (command : value) :
  loads "{}" = Return (VDict ∅) ->
  braced "{}" = true
  /\ (∅ : dict) !! "error" = None
  /\ _ProcessResponse (VStr "{}") command false
     = Raise (spec_empty_failure command (VDict ∅)).
Proof.
  intros Hl. split; [reflexivity|]. split; [reflexivity|].
  by rewrite (_ProcessResponse_raw_decoded "{}" ∅ command eq_refl Hl).
Qed.

End RawClaims.

Lemma raw_response_validation_witness :
  let run := @_ProcessResponse MiniJson.json in
  run (VStr Examples.error_text) (VStr "Ping") false
    = Raise (spec_error_failure (VStr "oops"))
  /\ run (VStr Examples.result_text) (VStr "Ping") false
     = Return (VDict {[ "result" := VInt 1 ]})
  /\ run (VStr "") (VStr "Ping") false
     = Raise (spec_empty_failure (VStr "Ping") (VStr ""))
  /\ run (VStr "pong") (VStr "Ping") false = Return (VStr "pong").
Proof.
  cbv zeta. split; [|split; [|split]].
  - apply (proj1 (raw_response_validation Examples.error_text (VStr "Ping"))
             {[ "error" := VStr "oops" ]});
      [reflexivity | by vm_compute | reflexivity].
  - apply (proj1 (proj2 (raw_response_validation Examples.result_text
                           (VStr "Ping"))));
      [reflexivity | by vm_compute | reflexivity | apply insert_non_empty].
  - apply (proj1 (proj2 (proj2 (proj2
             (raw_response_validation "" (VStr "Ping")))))).
    reflexivity.
  - apply (proj2 (proj2 (proj2 (proj2
             (raw_response_validation "pong" (VStr "Ping")))))).
    + discriminate.
    + reflexivity.
Defined.

Lemma empty_object_text_is_empty_response_witness :
  @loads MiniJson.json "{}" = Return (VDict ∅)
  /\ @_ProcessResponse MiniJson.json (VStr "{}") (VStr "Ping") false
     = Raise (spec_empty_failure (VStr "Ping") (VDict ∅)).
Proof.
  split; [by vm_compute|].
  apply (empty_object_text_is_empty_response (VStr "Ping")). by vm_compute.
Defined.

(** ** Payloads *)

Lemma dom_setitem_if (c : bool) (k : string) (v : value) (command : dict) :
  dom (setitem_if c k v command)
  = (if c then {[k]} else ∅ : gset string) ∪ dom command.
Proof.
  destruct c; cbn; [by rewrite dom_insert_L | by rewrite (left_id_L ∅ (∪))].
Qed.

Lemma dom_update (command other : dict) :
  dom (update command other) = dom other ∪ dom command.
Proof. unfold update. by rewrite dom_union_L. Qed.

Lemma elem_of_guarded (c : bool) (k k' : string) :
  k ∈ (if c then {[k']} else ∅ : gset string) <-> c = true /\ k = k'.
Proof.
  destruct c.
  - rewrite elem_of_singleton. split; [done | by intros [_ ->]].
  - rewrite elem_of_empty. split; [done | by intros [? _]].
Qed.

Lemma lookup_setitem_if_ne (c : bool) (k k' : string) (v : value)
    (command : dict) :
  k' <> k -> setitem_if c k' v command !! k = command !! k.
Proof. intros Hne. destruct c; cbn; [by rewrite lookup_insert_ne | done]. Qed.

Lemma lookup_update_notin (command other : dict) (k : string) :
  k ∉ dom other -> update command other !! k = command !! k.
Proof.
  intros Hk. unfold update. apply lookup_union_r. by apply not_elem_of_dom.
Qed.

Lemma truthy_not_None (v : value) : truthy v = true -> v <> VNone.
Proof. by intros Hv ->. Qed.

Lemma is_not_None_true (v : value) : is_not_None v = true -> v <> VNone.
Proof. by intros Hv ->. Qed.

(** Unfold the builder of an operation. *)
Ltac unfold_builders :=
  unfold StartObjectDetectionTask_command, StartContainerDetectionTask_command,
    StopTask_command, ResumeTask_command, BackupVisionLog_command,
    GetLatestDetectedObjects_command, GetLatestDetectionResultImages_command,
    GetDetectionHistory_command, GetVisionStatistics_command, Ping_command,
    SetLogLevel_command, Cancel_command, Quit_command,
    GetTaskStateService_command, GetPublishedStateService_command in *.

(** Reduce [payload op = Return cmd] to [cmd] being the expression built. *)
Ltac payload_inv H :=
  lazymatch type of H with
  | @payload ?o (OpStartVisualizePointCloudTask _ _ ?infos _ _ _ _ _ _ _ _)
    = _ =>
      let E := fresh "Einfos" in
      let E' := fresh "Elist" in
      cbn [payload] in H; unfold StartVisualizePointCloudTask_command in H;
      destruct (is_not_None infos) eqn:E;
      [destruct (@py_list o infos) eqn:E'|];
      cbn [mbind outcome_bind mret outcome_ret] in H;
      [injection H as <- | discriminate H | injection H as <-]
  | _ => cbn [payload] in H; unfold_builders; injection H as <-
  end.

(** The domain of a payload as a union of singletons and merged domains. *)
Ltac payload_dom :=
  repeat first
    [ rewrite dom_setitem_if
    | rewrite dom_update
    | rewrite dom_insert_L
    | rewrite dom_empty_L ].

(** Membership of a pair in a concrete list of optional arguments. *)
Ltac find_arg :=
  repeat first [ apply list_elem_of_here | apply list_elem_of_further ].

Section PayloadFacts.
Context `{!DictOrder}.

Lemma payload_command (op : operation) (cmd : dict) :
  payload op = Return cmd -> "command" ∉ merged_keys op ->
  cmd !! "command" = Some (VStr (command_name op)).
Proof.
  intros Hp Hm.
  destruct op; payload_inv Hp; cbn [merged_keys command_name] in *;
    repeat first
      [ rewrite lookup_setitem_if_ne by done
      | rewrite lookup_update_notin by set_solver
      | rewrite lookup_insert_ne by done ];
    by rewrite lookup_insert_eq.
Qed.

End PayloadFacts.

(** ** The claim about payloads *)

(** C7, as stated, at [StopTask()] with every optional argument left at its
    default and at [StartContainerDetectionTask({}, command='Quit')]: the
    first payload has the keys [waitForStop] and [removeTask], which the
    caller did not supply, and the second does not carry the name of the
    operation under ["command"]. *)
Lemma default_arguments_appear_in_payload :
  (exists cmd,
     payload (OpStopTask VNone VNone VNone VNone VNone (VBool true)
                (VBool false)) = Return cmd
     /\ "waitForStop" ∈ dom cmd /\ "removeTask" ∈ dom cmd)
  /\ (exists cmd,
        payload (OpStartContainerDetectionTask ∅ VNone VNone VNone VNone VNone
                   VNone VNone VNone VNone VNone VNone
                   {[ "command" := VStr "Quit" ]}) = Return cmd
        /\ cmd !! "command" <> Some (VStr "StartContainerDetectionTask")).
Proof.
  split.
  - eexists. split; [reflexivity|]. by vm_compute.
  - eexists. split; [reflexivity|]. by vm_compute.
Qed.

Section PayloadClaim.
Context `{!DictOrder}.

(** C7, amended. The payload an operation builds carries the name of the
    operation under ["command"] unless a dictionary the caller hands over to
    be merged has a ["command"] key of its own. The arguments the payload
    literal lists are always keys of the payload, with the value given
    unless a merged dictionary replaces it. Every other key is ["command"],
    a key of a merged dictionary, or an optional argument written under a
    guard whose value is not [None]; and an optional argument written under
    a guard that is [None] is not a key of the payload unless a merged
    dictionary supplies it. *)
Theorem payload_command_and_supplied_fields (op : operation) (cmd : dict) :
  payload op = Return cmd ->
  ("command" ∉ merged_keys op ->
   cmd !! "command" = Some (VStr (command_name op)))
  /\ (forall k v, (k, v) ∈ literal_args op ->
        k ∈ dom cmd /\ (k ∉ merged_keys op -> cmd !! k = Some v))
  /\ (forall k, k ∈ dom cmd ->
        k = "command" \/ k ∈ (literal_args op).*1 \/ k ∈ merged_keys op
        \/ exists v, (k, v) ∈ optional_args op /\ v <> VNone)
  /\ (forall k, (k, VNone) ∈ optional_args op -> k ∉ merged_keys op ->
        k ∉ dom cmd).
Proof.
  intros Hp. split; [by apply payload_command|]. split; [|split].
  - intros k v Hin.
    destruct op; cbn [literal_args] in Hin;
      rewrite ?elem_of_cons, ?elem_of_nil in Hin; try done;
      decompose [or] Hin; clear Hin; try done; simplify_eq;
      payload_inv Hp; cbn [merged_keys];
      (split;
       [ payload_dom; set_solver
       | intros Hm;
         repeat first
           [ rewrite lookup_setitem_if_ne by done
           | rewrite lookup_update_notin by set_solver
           | rewrite lookup_insert_ne by done ];
         by rewrite lookup_insert_eq ]).
  - intros k.
    destruct op; payload_inv Hp;
      cbn [merged_keys literal_args optional_args fmap list_fmap fst];
      payload_dom;
      rewrite ?elem_of_union, ?elem_of_guarded, ?elem_of_singleton,
        ?elem_of_empty, ?elem_of_cons, ?elem_of_nil;
      intros Hk; decompose [and or] Hk; clear Hk; subst;
      first
        [ done
        | by left
        | right; left; tauto
        | right; right; left; tauto
        | right; right; right; eexists; split;
          [find_arg | first [by apply truthy_not_None
                            | by apply is_not_None_true]] ].
  - intros k Hk Hm Hd. revert Hd.
    destruct op; payload_inv Hp;
      cbn [merged_keys optional_args] in *; payload_dom;
      rewrite ?elem_of_union, ?elem_of_guarded, ?elem_of_singleton,
        ?elem_of_empty;
      rewrite ?elem_of_cons, ?elem_of_nil in Hk;
      intros Hd; try done;
      decompose [or] Hk; clear Hk; simplify_eq;
      decompose [and or] Hd; clear Hd; simplify_eq;
      apply Hm; rewrite ?elem_of_union; tauto.
Qed.

End PayloadClaim.

(** ** Teardown and the payload sent *)

Section TeardownFacts.
Context {C S B : Type}.
Context `{!zmq.Context C, !zmqclient.ZmqClient C S,
          !zmqsubscriber.ZmqSubscriber C B, !Json}.

Implicit Types (w : @World C S B) (s : S) (b : B) (x : C).

(** Unfold the teardown down to the calls on the collaborators. *)
Ltac unfold_teardown :=
  unfold Destroy, SetDestroy, on_socket, on_subscriber, on_ctxown, try_except,
    mbind, M_bind, mret, M_ret, get_self, modify_self, record_call, lift,
    raise, log.

(** Teardown of a client whose resources are all released already makes no
    call and returns. *)
Lemma Destroy_released w :
  _commandsocket (self w) = None -> _configurationsocket (self w) = None ->
  _subscriber (self w) = None -> _ctxown (self w) = None ->
  Destroy w = (Return (), mkWorld (set_ctx None (self w)) (logged w) (calls w)).
Proof.
  intros Hc Hf Hb Hx. destruct w as [c l cs]. destruct c. cbn in Hc, Hf, Hb, Hx.
  subst. unfold_teardown. reflexivity.
Qed.

(** Teardown when every release succeeds: every reference is cleared. *)
Lemma Destroy_releases_all w s1 s1' s1'' s2 s2' s2'' b b' x x' :
  _commandsocket (self w) = Some s1 ->
  zmqclient.SetDestroy s1 = (Return (), s1') ->
  zmqclient.Destroy s1' = (Return (), s1'') ->
  _configurationsocket (self w) = Some s2 ->
  zmqclient.SetDestroy s2 = (Return (), s2') ->
  zmqclient.Destroy s2' = (Return (), s2'') ->
  _subscriber (self w) = Some b ->
  zmqsubscriber.Destroy b = (Return (), b') ->
  _ctxown (self w) = Some x ->
  zmq.destroy x = (Return (), x') ->
  Destroy w =
    (Return (),
     mkWorld
       (set_ctx None (set_ctxown None (set_subscriber None
          (set_configurationsocket None (set_commandsocket None (self w))))))
       (logged w)
       (calls w ++ [CallSetDestroy CommandChannel;
                    CallSetDestroy ConfigurationChannel;
                    CallDestroySocket CommandChannel;
                    CallDestroySocket ConfigurationChannel;
                    CallDestroySubscriber; CallDestroyContext])%list).
Proof.
  intros Hc Hc1 Hc2 Hf Hf1 Hf2 Hb Hb1 Hx Hx1.
  destruct w as [c l cs]. destruct c. cbn in Hc, Hf, Hb, Hx. subst.
  unfold_teardown.
  cbn. rewrite Hc1. cbn. rewrite Hf1. cbn. rewrite Hc2. cbn. rewrite Hf2. cbn.
  rewrite Hb1. cbn. rewrite Hx1. cbn. by rewrite <- !app_assoc.
Qed.

(** A failure of the command socket to close is caught and logged, and the
    teardown goes on to the configuration socket and the owned context. *)
Lemma Destroy_commandsocket_failure_logged w s1 s1' s1'' s2 s2' s2'' x x' e :
  is_Exception e = true ->
  _commandsocket (self w) = Some s1 ->
  zmqclient.SetDestroy s1 = (Return (), s1') ->
  zmqclient.Destroy s1' = (Raise e, s1'') ->
  _configurationsocket (self w) = Some s2 ->
  zmqclient.SetDestroy s2 = (Return (), s2') ->
  zmqclient.Destroy s2' = (Return (), s2'') ->
  _subscriber (self w) = None ->
  _ctxown (self w) = Some x ->
  zmq.destroy x = (Return (), x') ->
  Destroy w =
    (Return (),
     mkWorld
       (set_ctx None (set_ctxown None
          (set_configurationsocket None
             (set_commandsocket (Some s1'') (self w)))))
       (logged w ++ [mkLog "exception" "problem destroying commandsocket: %s"
                       [ArgExn e]])%list
       (calls w ++ [CallSetDestroy CommandChannel;
                    CallSetDestroy ConfigurationChannel;
                    CallDestroySocket CommandChannel;
                    CallDestroySocket ConfigurationChannel;
                    CallDestroyContext])%list).
Proof.
  intros He Hc Hc1 Hc2 Hf Hf1 Hf2 Hb Hx Hx1.
  destruct w as [c l cs]. destruct c. cbn in Hc, Hf, Hb, Hx. subst.
  unfold_teardown.
  cbn. rewrite Hc1. cbn. rewrite Hf1. cbn. rewrite Hc2. cbn. rewrite He. cbn.
  rewrite Hf2. cbn. rewrite Hx1. cbn. by rewrite <- !app_assoc.
Qed.

(** A failure of the subscriber to close leaves the teardown at once: the
    owned context is not released and [_ctx] is not cleared. *)
Lemma Destroy_subscriber_failure w s1 s1' s1'' s2 s2' s2'' b b' e :
  _commandsocket (self w) = Some s1 ->
  zmqclient.SetDestroy s1 = (Return (), s1') ->
  zmqclient.Destroy s1' = (Return (), s1'') ->
  _configurationsocket (self w) = Some s2 ->
  zmqclient.SetDestroy s2 = (Return (), s2') ->
  zmqclient.Destroy s2' = (Return (), s2'') ->
  _subscriber (self w) = Some b ->
  zmqsubscriber.Destroy b = (Raise e, b') ->
  Destroy w =
    (Raise e,
     mkWorld
       (set_subscriber (Some b')
          (set_configurationsocket None (set_commandsocket None (self w))))
       (logged w)
       (calls w ++ [CallSetDestroy CommandChannel;
                    CallSetDestroy ConfigurationChannel;
                    CallDestroySocket CommandChannel;
                    CallDestroySocket ConfigurationChannel;
                    CallDestroySubscriber])%list).
Proof.
  intros Hc Hc1 Hc2 Hf Hf1 Hf2 Hb Hb1.
  destruct w as [c l cs]. destruct c. cbn in Hc, Hf, Hb. subst.
  unfold_teardown.
  cbn. rewrite Hc1. cbn. rewrite Hf1. cbn. rewrite Hc2. cbn. rewrite Hf2. cbn.
  rewrite Hb1. cbn. by rewrite <- !app_assoc.
Qed.

(** Whatever the transport answers, [_ExecuteCommand] makes one send, of the
    payload with the caller identifier written in when it is truthy. *)
Lemma _ExecuteCommand_calls command ff timeout rj cp bw w s :
  _commandsocket (self w) = Some s ->
  calls (_ExecuteCommand command ff timeout rj cp bw w).2 =
    (calls w ++ [CallSendCommand CommandChannel
                   (with_callerid (self w) command) ff timeout (Some rj) cp
                   (Some bw)])%list.
Proof.
  intros Hs. unfold _ExecuteCommand.
  unfold mbind at 1. unfold M_bind at 1. unfold get_self at 1.
  unfold mbind at 1. unfold M_bind at 1.
  destruct (zmqclient.SendCommand s (with_callerid (self w) command) ff
              timeout (Some rj) cp (Some bw)) as [r s'] eqn:Hsend.
  erewrite on_socket_run; [|exact Hs|exact Hsend].
  destruct r; [destruct (bw && negb ff)|]; reflexivity.
Qed.

Lemma _SendConfiguration_calls configuration ff timeout cp rj w s :
  _configurationsocket (self w) = Some s ->
  calls (_SendConfiguration configuration ff timeout cp rj w).2 =
    (calls w ++ [CallSendCommand ConfigurationChannel
                   (with_callerid (self w) configuration) ff timeout None cp
                   None])%list.
Proof.
  intros Hs. unfold _SendConfiguration.
  unfold mbind at 1. unfold M_bind at 1. unfold get_self at 1.
  unfold mbind at 1. unfold M_bind at 1.
  destruct (zmqclient.SendCommand s (with_callerid (self w) configuration) ff
              timeout None cp None) as [r s'] eqn:Hsend.
  erewrite on_socket_run; [|exact Hs|exact Hsend].
  destruct r; [destruct (negb ff)|]; reflexivity.
Qed.


End TeardownFacts.



Lemma lookup_setitem_if_eq (k : string) (v : value) (command : dict) :
  setitem_if true k v command !! k = Some v.
Proof. cbn. by rewrite lookup_insert_eq. Qed.

Lemma is_not_None_of_ne (v : value) : v <> VNone -> is_not_None v = true.
Proof. by destruct v. Qed.


(** ** The claims about teardown and falsy arguments *)


Section TeardownClaims.
Context {C S B : Type}.
Context `{!zmq.Context C, !zmqclient.ZmqClient C S,
          !zmqsubscriber.ZmqSubscriber C B, !Json, !DictOrder}.

Implicit Types (w : @World C S B) (s : S) (b : B).

(** C8. Teardown does not isolate a failure of the subscriber: when both
    sockets close normally and closing the subscriber raises [e], [Destroy]
    raises [e] itself; nothing is logged, the owned context is neither
    released nor cleared, [_ctx] is not cleared, and the subscriber reference
    stays. *)
Theorem teardown_stops_at_subscriber_failure
    w s1 s1' s1'' s2 s2' s2'' b b' (e : pyexn) :
  _commandsocket (self w) = Some s1 ->
  zmqclient.SetDestroy s1 = (Return (), s1') ->
  zmqclient.Destroy s1' = (Return (), s1'') ->
  _configurationsocket (self w) = Some s2 ->
  zmqclient.SetDestroy s2 = (Return (), s2') ->
  zmqclient.Destroy s2' = (Return (), s2'') ->
  _subscriber (self w) = Some b ->
  zmqsubscriber.Destroy b = (Raise e, b') ->
  (Destroy w).1 = Raise e
  /\ logged (Destroy w).2 = logged w
  /\ _ctxown (self (Destroy w).2) = _ctxown (self w)
  /\ _ctx (self (Destroy w).2) = _ctx (self w)
  /\ _subscriber (self (Destroy w).2) = Some b'
  /\ calls (Destroy w).2 =
       (calls w ++ [CallSetDestroy CommandChannel;
                    CallSetDestroy ConfigurationChannel;
                    CallDestroySocket CommandChannel;
                    CallDestroySocket ConfigurationChannel;
                    CallDestroySubscriber])%list.
Proof.
  intros Hc Hc1 Hc2 Hf Hf1 Hf2 Hb Hb1.
  rewrite (Destroy_subscriber_failure w _ _ _ _ _ _ _ _ _
             Hc Hc1 Hc2 Hf Hf1 Hf2 Hb Hb1).
  cbn. done.
Qed.


End TeardownClaims.

(** ** The statements at concrete inputs *)

Lemma structured_error_response_fails_witness :
  let w := Scripted.world Examples.refused_client in
  let failure :=
    Raise (spec_error_failure
             (VDict (<["desc" := VStr "X"]> {[ "type" := VStr "Y" ]}))) in
  @_ProcessResponse MiniJson.json (VDict Examples.typed_error_response)
    (VDict Ping_command) true = failure
  /\ (_ExecuteCommand Ping_command false (VFloat 2) true true true w).1
     = failure
  /\ (_SendConfiguration Ping_command false (VFloat 2) true true w).1
     = failure.
Proof.
  cbv zeta.
  eapply (structured_error_response_fails Examples.typed_error_response);
    reflexivity.
Defined.

Lemma execute_validates_iff_blocking_witness :
  let w := Scripted.world Examples.anonymous_client in
  let run := _ExecuteCommand Ping_command false (VFloat 2) true true true w in
  calls run.2 =
    [CallSendCommand CommandChannel Ping_command false (VFloat 2) (Some true)
       true (Some true)]
  /\ run.1 = Return (VDict {[ "ok" := VInt 1 ]}).
Proof.
  cbv zeta.
  edestruct (execute_validates_iff_blocking Ping_command false (VFloat 2)
               true true true (Scripted.world Examples.anonymous_client))
    as (Hcalls & _ & _ & Hblocking); [reflexivity | reflexivity |].
  split; [exact Hcalls|].
  rewrite (Hblocking eq_refl eq_refl). reflexivity.
Defined.

Lemma wait_without_pending_call_is_invalid_witness :
  let w := Scripted.world (Scripted.client VNone [] [] false) in
  let run := _WaitForResponse true (VFloat 2) VNone w in
  (exists msg,
     run.1 = Raise (VisionControllerClientError msg (VStr "invalidwait")))
  /\ calls run.2 = [CallIsWaitingReply]
  /\ self run.2 = self w.
Proof.
  cbv zeta.
  eapply (wait_without_pending_call_is_invalid true (VFloat 2) VNone
            (Scripted.world (Scripted.client VNone [] [] false)));
    reflexivity.
Defined.

Lemma wait_timeout_failure_depends_on_duration_witness :
  let command := VDict Ping_command in
  let run timeout replies :=
    (_WaitForResponse true timeout command
       (Scripted.world (Examples.waiting_client replies))).1 in
  run (VFloat 2) []
  = Raise (VisionControllerTimeoutError
             (MsgPercent
                "Timed out after %.03f seconds to get response message %s from %s:%d: %s"
                (ArgTuple [ArgValue (VFloat 2); ArgValue (VStr "Ping");
                           ArgValue (VStr "127.0.0.1"); ArgValue (VInt 7004);
                           ArgExn (TimeoutError "no reply")]))
             (VStr "timeout"))
  /\ run VNone [] = Raise (TypeError "must be real number").
Proof.
  cbv zeta. split.
  - edestruct (wait_timeout_failure_depends_on_duration true (VFloat 2)
                 (VDict Ping_command)
                 (Scripted.world (Examples.waiting_client [])))
      as ((Hfail & _) & _);
      [reflexivity | reflexivity | reflexivity | left; by eexists |].
    exact Hfail.
  - edestruct (wait_timeout_failure_depends_on_duration true VNone
                 (VDict Ping_command)
                 (Scripted.world (Examples.waiting_client [])))
      as (_ & Hnone & _); [reflexivity | reflexivity | reflexivity |].
    exact (Hnone eq_refl).
Defined.

Lemma wait_other_failure_is_unknownerror_witness :
  let w := Scripted.world
             (Examples.waiting_client [Raise Examples.connection_reset]) in
  (_WaitForResponse true (VFloat 2) (VDict Ping_command) w).1
  = Raise (VisionControllerClientError
             (MsgPercent
                "Problem receiving response from the last vision manager async call %s: %s"
                (ArgTuple [ArgValue (VStr "Ping");
                           ArgExn Examples.connection_reset]))
             (VStr "unknownerror")).
Proof.
  cbv zeta.
  edestruct (wait_other_failure_is_unknownerror true (VFloat 2)
               (VDict Ping_command)
               (Scripted.world
                  (Examples.waiting_client [Raise Examples.connection_reset])))
    as [Hfail _];
    [reflexivity | reflexivity | reflexivity | reflexivity | reflexivity |].
  exact Hfail.
Defined.

(** C5, as stated, at a receive that raises [connection_reset]: the kind of
    the failure is the kind of the unknown-error failure of validation, not
    a kind of its own. *)
Lemma wait_failure_kind_is_the_unknown_error_kind :
  let w := Scripted.world
             (Examples.waiting_client [Raise Examples.connection_reset]) in
  exists e,
    (_WaitForResponse true (VFloat 2) (VDict Ping_command) w).1 = Raise e
    /\ errortype_of e = errortype_of (spec_error_failure (VStr "oops"))
    /\ errortype_of e <> Some (VStr "communicationerror").
Proof.
  cbv zeta. eexists. split; [reflexivity|]. split; [reflexivity|].
  cbn. discriminate.
Qed.

Lemma payload_command_and_supplied_fields_witness :
  let op := OpStopTask (VStr "task1") VNone VNone VNone VNone VNone
              (VBool false) in
  let cmd := StopTask_command (VStr "task1") VNone VNone VNone VNone VNone
               (VBool false) in
  payload op = Return cmd
  /\ cmd !! "command" = Some (VStr "StopTask")
  /\ cmd !! "waitForStop" = Some VNone
  /\ "taskIds" ∉ dom cmd.
Proof.
  cbv zeta. split; [reflexivity|].
  edestruct (payload_command_and_supplied_fields
               (OpStopTask (VStr "task1") VNone VNone VNone VNone VNone
                  (VBool false))) as (Hname & Hliteral & _ & Habsent);
    [reflexivity|].
  split; [|split].
  - apply Hname. cbn. apply not_elem_of_empty.
  - apply (Hliteral "waitForStop" VNone).
    + cbn. apply list_elem_of_here.
    + cbn. apply not_elem_of_empty.
  - apply Habsent.
    + cbn. apply list_elem_of_further, list_elem_of_here.
    + cbn. apply not_elem_of_empty.
Defined.

Lemma teardown_stops_at_subscriber_failure_witness :
  let w := Scripted.world Examples.subscribed_client in
  (Destroy w).1 = Raise (Exception "RuntimeError" "boom")
  /\ logged (Destroy w).2 = []
  /\ _ctxown (self (Destroy w).2) = _ctxown (self w)
  /\ _ctx (self (Destroy w).2) = _ctx (self w)
  /\ _subscriber (self (Destroy w).2)
     = Some (Scripted.mkSubscriber "tcp://127.0.0.1:7007" []
               (Raise (Exception "RuntimeError" "boom")) false)
  /\ calls (Destroy w).2 =
       [CallSetDestroy CommandChannel; CallSetDestroy ConfigurationChannel;
        CallDestroySocket CommandChannel;
        CallDestroySocket ConfigurationChannel; CallDestroySubscriber].
Proof.
  cbv zeta.
  eapply (teardown_stops_at_subscriber_failure
            (Scripted.world Examples.subscribed_client));
    reflexivity.
Defined.


(** * Further properties of the code *)

(** ** Validation *)

Section ValidationProperties.
Context `{!Json}.

(** In JSON mode a mapping passes validation exactly when it has no ['error']
    key; it is then returned as it is, the empty mapping included. *)
Theorem structured_response_ok_iff_no_error (d : dict) (command : value) :
  _ProcessResponse (VDict d) command true = Return (VDict d)
  <-> d !! "error" = None.
Proof.
  split.
  - intros Hok. destruct (d !! "error") as [err|] eqn:Herr; [|done].
    by rewrite (_ProcessResponse_structured_error d err command Herr) in Hok.
  - apply _ProcessResponse_structured_ok.
Qed.

(** In raw mode a braced text the decoder rejects fails with the decoder's
    own exception: it is neither returned as text nor turned into a client
    error. *)
Theorem raw_decode_failure_propagates (s : string) (command : value)
    (e : pyexn) :
  braced s = true -> loads s = Raise e ->
  _ProcessResponse (VStr s) command false = Raise e.
Proof.
  intros Hb Hl. unfold _ProcessResponse.
  rewrite looks_like_json_text, Hb. cbn [mbind outcome_bind json_loads].
  by rewrite Hl.
Qed.

(** Raw-mode validation never returns an empty value: what it returns has a
    length, and the length is positive; a mapping it returns has no
    ['error'] key. *)
Theorem raw_response_result_is_not_empty (s : string) (command v : value) :
  _ProcessResponse (VStr s) command false = Return v ->
  (exists n, py_len v = Return n /\ (0 < n)%Z)
  /\ (forall d, v = VDict d -> d !! "error" = None).
Proof.
  unfold _ProcessResponse. rewrite looks_like_json_text.
  cbn [mbind outcome_bind json_loads].
  destruct (braced s).
  - destruct (loads s) as [r|e]; cbn [mbind outcome_bind]; [|done].
    destruct (py_contains "error" r) as [has|e] eqn:Hhas;
      cbn [mbind outcome_bind]; [|done].
    destruct has.
    + destruct (_HandleError r) as [[]|e] eqn:Hh; cbn [mbind outcome_bind];
        [|done].
      exfalso. revert Hh. unfold _HandleError.
      destruct (py_getitem r "error") as [err|]; cbn [mbind outcome_bind];
        [by destruct err | done].
    + cbn [mbind outcome_bind mret outcome_ret].
      destruct (py_len r) as [n|] eqn:Hn; cbn [mbind outcome_bind]; [|done].
      destruct (n =? 0)%Z eqn:Hz; [done|]. intros [= <-].
      apply Z.eqb_neq in Hz. split.
      * exists n. split; [done|].
        destruct r; cbn in Hn; simplify_eq; lia.
      * intros d ->. cbn in Hhas. injection Hhas as Hhas.
        apply bool_decide_eq_false in Hhas.
        destruct (d !! "error") eqn:E; [|done]. destruct Hhas. eauto.
  - cbn [mbind outcome_bind py_len].
    destruct (Z.of_nat (String.length s) =? 0)%Z eqn:Hz; [done|].
    intros [= <-]. apply Z.eqb_neq in Hz. split; [|done].
    eexists. split; [reflexivity|]. lia.
Qed.

End ValidationProperties.

(** ** Requests *)

Section RequestProperties.
Context {C S B : Type}.
Context `{!zmq.Context C, !zmqclient.ZmqClient C S,
          !zmqsubscriber.ZmqSubscriber C B, !Json}.

Implicit Types (w : @World C S B) (s : S).

Lemma on_socket_absent {A} ch call (method : S -> outcome A * S) w :
  socket_of ch (self w) = None ->
  on_socket ch call method w
  = (Raise (AttributeError "'NoneType' object has no attribute"), w).
Proof.
  intros Hs. unfold on_socket, mbind, M_bind, get_self. cbn. by rewrite Hs.
Qed.

(** Once the sockets are released, every request raises [AttributeError]:
    nothing is sent, and the client, the log and the calls made stay as they
    were. *)
Theorem request_on_released_client_raises
    (command : dict) (fireandforget : bool) (timeout cmd : value)
    (recvjson checkpreempt blockwait : bool) w :
  _commandsocket (self w) = None ->
  _configurationsocket (self w) = None ->
  let failure {A} : outcome A * World :=
    (Raise (AttributeError "'NoneType' object has no attribute"), w) in
  _ExecuteCommand command fireandforget timeout recvjson checkpreempt
    blockwait w = failure
  /\ _SendConfiguration command fireandforget timeout checkpreempt recvjson w
     = failure
  /\ _WaitForResponse recvjson timeout cmd w = failure
  /\ IsWaitingResponse w = failure.
Proof.
  intros Hc Hf failure. subst failure. cbv beta.
  unfold _ExecuteCommand, _SendConfiguration, _WaitForResponse,
    IsWaitingResponse.
  repeat split.
  - unfold mbind at 1. unfold M_bind at 1. unfold get_self at 1.
    unfold mbind at 1. unfold M_bind at 1.
    by rewrite (on_socket_absent CommandChannel _ _ w Hc).
  - unfold mbind at 1. unfold M_bind at 1. unfold get_self at 1.
    unfold mbind at 1. unfold M_bind at 1.
    by rewrite (on_socket_absent ConfigurationChannel _ _ w Hf).
  - unfold mbind at 1. unfold M_bind at 1.
    by rewrite (on_socket_absent CommandChannel _ _ w Hc).
  - by rewrite (on_socket_absent CommandChannel _ _ w Hc).
Qed.

(** An exception raised by the transport while sending leaves
    [_ExecuteCommand] and [_SendConfiguration] as it is: it is not wrapped in
    a client error (a transport timeout stays the transport's
    [TimeoutError]), and no validation takes place. *)
Theorem send_failure_propagates_unchanged
    (command configuration : dict) (fireandforget : bool) (timeout : value)
    (recvjson checkpreempt blockwait : bool) w s1 s1' s2 s2' (e1 e2 : pyexn) :
  _commandsocket (self w) = Some s1 ->
  zmqclient.SendCommand s1 (with_callerid (self w) command) fireandforget
    timeout (Some recvjson) checkpreempt (Some blockwait) = (Raise e1, s1') ->
  _configurationsocket (self w) = Some s2 ->
  zmqclient.SendCommand s2 (with_callerid (self w) configuration)
    fireandforget timeout None checkpreempt None = (Raise e2, s2') ->
  (_ExecuteCommand command fireandforget timeout recvjson checkpreempt
     blockwait w).1 = Raise e1
  /\ (_SendConfiguration configuration fireandforget timeout checkpreempt
        recvjson w).1 = Raise e2.
Proof.
  intros Hs1 Hsend1 Hs2 Hsend2.
  unfold _ExecuteCommand, _SendConfiguration. split.
  - unfold mbind at 1. unfold M_bind at 1. unfold get_self at 1.
    unfold mbind at 1. unfold M_bind at 1.
    by erewrite on_socket_run; [|exact Hs1|exact Hsend1].
  - unfold mbind at 1. unfold M_bind at 1. unfold get_self at 1.
    unfold mbind at 1. unfold M_bind at 1.
    by erewrite on_socket_run; [|exact Hs2|exact Hsend2].
Qed.

Lemma with_callerid_truthy (c : @VisionControllerClient C S B) (command : dict) :
  truthy (_callerid c) = true ->
  with_callerid c command = <["callerid" := _callerid c]> command.
Proof. intros Hc. unfold with_callerid, setitem_if. by rewrite Hc. Qed.

(** A client configured with a truthy caller identifier writes it under
    ['callerid'] into every payload it sends, on the command and on the
    configuration socket, replacing a ['callerid'] entry of the payload and
    leaving every other entry as it is. *)
Theorem caller_identifier_is_sent
    (command configuration : dict) (fireandforget : bool) (timeout : value)
    (recvjson checkpreempt blockwait : bool) w s1 s2 :
  truthy (_callerid (self w)) = true ->
  _commandsocket (self w) = Some s1 ->
  _configurationsocket (self w) = Some s2 ->
  let tagged (payload sent : dict) :=
    sent !! "callerid" = Some (_callerid (self w))
    /\ forall k, k <> "callerid" -> sent !! k = payload !! k in
  (exists sent,
     calls (_ExecuteCommand command fireandforget timeout recvjson
              checkpreempt blockwait w).2
     = (calls w ++ [CallSendCommand CommandChannel sent fireandforget timeout
                      (Some recvjson) checkpreempt (Some blockwait)])%list
     /\ tagged command sent)
  /\ (exists sent,
        calls (_SendConfiguration configuration fireandforget timeout
                 checkpreempt recvjson w).2
        = (calls w ++ [CallSendCommand ConfigurationChannel sent
                         fireandforget timeout None checkpreempt None])%list
        /\ tagged configuration sent).
Proof.
  intros Hid Hs1 Hs2 tagged. subst tagged. cbv beta. split.
  - eexists. split; [exact (_ExecuteCommand_calls _ _ _ _ _ _ _ _ Hs1)|].
    rewrite (with_callerid_truthy _ _ Hid). split.
    + by rewrite lookup_insert_eq.
    + intros k Hk. by rewrite lookup_insert_ne.
  - eexists. split; [exact (_SendConfiguration_calls _ _ _ _ _ _ _ Hs2)|].
    rewrite (with_callerid_truthy _ _ Hid). split.
    + by rewrite lookup_insert_eq.
    + intros k Hk. by rewrite lookup_insert_ne.
Qed.

End RequestProperties.

(** ** Teardown *)

Section TeardownProperties.
Context {C S B : Type}.
Context `{!zmq.Context C, !zmqclient.ZmqClient C S,
          !zmqsubscriber.ZmqSubscriber C B, !Json}.

Implicit Types (w : @World C S B) (s : S) (b : B) (x : C).

Ltac unfold_teardown :=
  unfold Destroy, SetDestroy, on_socket, on_subscriber, on_ctxown, try_except,
    mbind, M_bind, mret, M_ret, get_self, modify_self, record_call, lift,
    raise, log.

(** Run the teardown by evaluation, using the answers of the collaborators
    that the hypotheses give. *)
Ltac run_teardown :=
  repeat match goal with
         | H : true = true |- _ => clear H
         | H : _ = (_, _) |- _ => progress (vm_compute in H)
         | H : _ = true |- _ => progress (vm_compute in H)
         end;
  vm_compute;
  repeat (match goal with
          | H : _ = (_, _) |- _ => rewrite H
          | H : _ = true |- _ => rewrite H
          end; vm_compute).

(** Case analysis on the next answer of a collaborator. *)
Ltac teardown_case :=
  match goal with
  | |- context [zmqclient.SetDestroy ?s] =>
      is_var s; destruct (zmqclient.SetDestroy s) as [[[]|?] ?]
  | |- context [zmqclient.Destroy ?s] =>
      is_var s; destruct (zmqclient.Destroy s) as [[[]|?] ?]
  | |- context [zmqsubscriber.Destroy ?b] =>
      is_var b; destruct (zmqsubscriber.Destroy b) as [[[]|?] ?]
  | |- context [is_Exception ?e] =>
      is_var e; destruct (is_Exception e)
  end; cbn.

(** [Destroy] releases the context only through [_ctxown]: a client that
    does not own its context (one was handed to [__init__]) never has it
    destroyed, whatever the sockets and the subscriber do while closing. *)
Theorem borrowed_context_is_never_destroyed w :
  _ctxown (self w) = None ->
  exists new,
    calls (Destroy w).2 = (calls w ++ new)%list
    /\ CallDestroyContext ∉ new.
Proof.
  intros Hx. destruct w as [c l cs].
  destruct c as [ctx ctxown host p1 p2 p3 cmd cfg id fn sub]. cbn in Hx.
  subst. destruct cmd, cfg, sub;
    unfold_teardown; cbn;
    repeat teardown_case;
    rewrite <- ?app_assoc; cbn;
    (eexists; split; [try reflexivity; by rewrite app_nil_r |]);
    rewrite ?elem_of_cons, ?elem_of_nil; intros Hin; intuition discriminate.
Qed.

(** When every release succeeds, [Destroy] returns and clears every
    reference; the other attributes and the log are left as they were. *)
Lemma Destroy_clean_run w :
  (forall s, _commandsocket (self w) = Some s ->
     exists s' s'', zmqclient.SetDestroy s = (Return (), s')
                    /\ zmqclient.Destroy s' = (Return (), s'')) ->
  (forall s, _configurationsocket (self w) = Some s ->
     exists s' s'', zmqclient.SetDestroy s = (Return (), s')
                    /\ zmqclient.Destroy s' = (Return (), s'')) ->
  (forall b, _subscriber (self w) = Some b ->
     exists b', zmqsubscriber.Destroy b = (Return (), b')) ->
  (forall x, _ctxown (self w) = Some x ->
     exists x', zmq.destroy x = (Return (), x')) ->
  exists cs',
    Destroy w =
      (Return (),
       mkWorld
         (mkClient None None (hostname (self w)) (commandport (self w))
            (configurationport (self w)) (statusport (self w)) None None
            (_callerid (self w)) (_checkpreemptfn (self w)) None)
         (logged w) cs').
Proof.
  intros Hc Hf Hb Hx.
  destruct w as [c l cs].
  destruct c as [ctx ctxown host p1 p2 p3 cmd cfg id fn sub].
  cbn in Hc, Hf, Hb, Hx.
  destruct cmd as [s1|];
    [destruct (Hc s1 eq_refl) as (s1' & s1'' & Hc1 & Hc2)|];
    (destruct cfg as [s2|];
     [destruct (Hf s2 eq_refl) as (s2' & s2'' & Hf1 & Hf2)|]);
    (destruct sub as [b|]; [destruct (Hb b eq_refl) as (b' & Hb1)|]);
    (destruct ctxown as [x|]; [destruct (Hx x eq_refl) as (x' & Hx1)|]);
    clear Hc Hf Hb Hx; run_teardown; eexists; reflexivity.
Qed.

(** When every release succeeds, [Destroy] returns with every reference
    cleared, and a second [Destroy] returns as well, makes no call and
    changes nothing. *)
Theorem teardown_twice_is_teardown_once w :
  (forall s, _commandsocket (self w) = Some s ->
     exists s' s'', zmqclient.SetDestroy s = (Return (), s')
                    /\ zmqclient.Destroy s' = (Return (), s'')) ->
  (forall s, _configurationsocket (self w) = Some s ->
     exists s' s'', zmqclient.SetDestroy s = (Return (), s')
                    /\ zmqclient.Destroy s' = (Return (), s'')) ->
  (forall b, _subscriber (self w) = Some b ->
     exists b', zmqsubscriber.Destroy b = (Return (), b')) ->
  (forall x, _ctxown (self w) = Some x ->
     exists x', zmq.destroy x = (Return (), x')) ->
  let w' := (Destroy w).2 in
  (Destroy w).1 = Return ()
  /\ _commandsocket (self w') = None
  /\ _configurationsocket (self w') = None
  /\ _subscriber (self w') = None
  /\ _ctxown (self w') = None
  /\ _ctx (self w') = None
  /\ Destroy w' = (Return (), w').
Proof.
  intros Hc Hf Hb Hx w'.
  destruct (Destroy_clean_run w Hc Hf Hb Hx) as [cs' Hrun].
  subst w'. rewrite Hrun. cbn [fst snd self].
  do 6 (split; [reflexivity|]).
  rewrite Destroy_released by reflexivity. reflexivity.
Qed.

(** A failure of a socket or of the owned context to close that
    [except Exception] catches does not stop the teardown: [Destroy] returns,
    each failure is logged under the name of its resource, [_ctx] is cleared,
    and the reference to a resource that failed to close is kept while the
    others are cleared. *)
Theorem teardown_logs_caught_failures
    w s1 s1' s1'' s2 s2' s2'' x x' (r1 r2 r3 : outcome unit) :
  _commandsocket (self w) = Some s1 ->
  zmqclient.SetDestroy s1 = (Return (), s1') ->
  zmqclient.Destroy s1' = (r1, s1'') ->
  _configurationsocket (self w) = Some s2 ->
  zmqclient.SetDestroy s2 = (Return (), s2') ->
  zmqclient.Destroy s2' = (r2, s2'') ->
  _subscriber (self w) = None ->
  _ctxown (self w) = Some x ->
  zmq.destroy x = (r3, x') ->
  catchable r1 = true -> catchable r2 = true -> catchable r3 = true ->
  Destroy w =
    (Return (),
     mkWorld
       (set_ctx None (set_ctxown (kept r3 x')
          (set_configurationsocket (kept r2 s2'')
             (set_commandsocket (kept r1 s1'') (self w)))))
       (logged w ++ failure_log "commandsocket" r1
          ++ failure_log "configurationsocket" r2
          ++ failure_log "ctxown" r3)%list
       (calls w ++ [CallSetDestroy CommandChannel;
                    CallSetDestroy ConfigurationChannel;
                    CallDestroySocket CommandChannel;
                    CallDestroySocket ConfigurationChannel;
                    CallDestroyContext])%list).
Proof.
  intros Hc Hc1 Hc2 Hf Hf1 Hf2 Hb Hx Hx1 Hr1 Hr2 Hr3.
  destruct w as [c l cs]. destruct c. cbn in Hc, Hf, Hb, Hx. subst.
  destruct r1 as [[]|e1], r2 as [[]|e2], r3 as [[]|e3];
    cbn in Hr1, Hr2, Hr3; run_teardown.
  all: fold (@app Call); fold (@app LogRecord).
  all: rewrite <- ?app_assoc, ?app_nil_r; reflexivity.
Qed.

(** [SetDestroy], the first step of [Destroy], is not guarded: when it raises
    on the command socket, [Destroy] raises the same exception at once and
    nothing is released, closed or logged. *)
Theorem teardown_stops_at_setdestroy_failure w s1 s1' (e : pyexn) :
  _commandsocket (self w) = Some s1 ->
  zmqclient.SetDestroy s1 = (Raise e, s1') ->
  Destroy w =
    (Raise e,
     mkWorld (set_commandsocket (Some s1') (self w)) (logged w)
       (calls w ++ [CallSetDestroy CommandChannel])%list).
Proof.
  intros Hc Hc1. destruct w as [c l cs]. destruct c. cbn in Hc. subst.
  unfold_teardown. cbn. rewrite Hc1. reflexivity.
Qed.

End TeardownProperties.

(** ** Payloads of the operations *)

Lemma lookup_update_Some (command other : dict) (k : string) (v : value) :
  other !! k = Some v -> update command other !! k = Some v.
Proof. intros Hk. unfold update. by apply lookup_union_Some_l. Qed.

Lemma lookup_update_None (command other : dict) (k : string) :
  other !! k = None -> update command other !! k = command !! k.
Proof. intros Hk. unfold update. by apply lookup_union_r. Qed.

Lemma is_True_spec (v : value) : is_True v = true <-> v = VBool true.
Proof.
  split; [|by intros ->].
  destruct v as [| [] | | | | |]; cbn; by try discriminate.
Qed.

Section MergedPayloads.
Context `{!DictOrder}.

(** Keyword arguments are merged last: an entry of [**kwargs] is in the
    payload as given, whatever the named arguments and [vminitparams] say.
    An entry of [vminitparams] that no keyword argument replaces is in the
    payload as given unless its key is the name of an optional argument;
    it replaces the ['command'] and ['targetupdatename'] of the literal. *)
Theorem merged_entries_precedence (op : operation) (cmd : dict)
    (k : string) (v : value) :
  payload op = Return cmd ->
  (kwargs_of op !! k = Some v -> cmd !! k = Some v)
  /\ (vminitparams_of op !! k = Some v -> kwargs_of op !! k = None ->
      k ∉ (optional_args op).*1 -> cmd !! k = Some v).
Proof.
  intros Hp. split.
  - destruct op; cbn [kwargs_of]; try (by rewrite lookup_empty);
      payload_inv Hp; apply lookup_update_Some.
  - destruct op; cbn [kwargs_of vminitparams_of optional_args];
      try (by rewrite lookup_empty); payload_inv Hp;
      intros Hvm Hkw Hk; cbn [fmap list_fmap fst] in Hk;
      rewrite ?not_elem_of_cons in Hk;
      rewrite ?(lookup_update_None _ _ _ Hkw);
      repeat first
        [ rewrite lookup_setitem_if_ne by (intros E; symmetry in E; tauto)
        | rewrite lookup_insert_ne by (intros E; symmetry in E; tauto) ];
      by apply lookup_update_Some.
Qed.

(** The flags [ignoreocclusion] and [request] are sent as 1 for [True]
    itself and as 0 for every other value that is not [None]: a caller who
    passes the number 1 gets 0. *)
Theorem flag_is_one_only_for_True (op : operation) (cmd : dict)
    (k : string) (v : value) :
  payload op = Return cmd ->
  k = "ignoreocclusion" \/ k = "request" ->
  (k, v) ∈ optional_args op ->
  v <> VNone ->
  kwargs_of op !! k = None ->
  cmd !! k = Some (if is_True v then VInt 1 else VInt 0)
  /\ (is_True v = true <-> v = VBool true).
Proof.
  intros Hp Hk Hin Hv Hkw. split; [|apply is_True_spec].
  apply is_not_None_of_ne in Hv.
  destruct op; cbn [optional_args kwargs_of] in Hin, Hkw;
    rewrite ?elem_of_cons, ?elem_of_nil in Hin; try done;
    destruct Hk as [-> | ->]; decompose [or] Hin; clear Hin;
    try done; simplify_eq; payload_inv Hp;
    rewrite ?(lookup_update_None _ _ _ Hkw);
    repeat first [ rewrite lookup_setitem_if_ne by done
                 | rewrite lookup_insert_ne by done ];
    rewrite Hv, lookup_setitem_if_eq; reflexivity.
Qed.

End MergedPayloads.

Section PayloadProperties.
Context {C S B : Type}.
Context `{!zmq.Context C, !zmqclient.ZmqClient C S,
          !zmqsubscriber.ZmqSubscriber C B, !Json, !DictOrder}.

Implicit Types (w : @World C S B).

(** [StartVisualizePointCloudTask] turns [sensorSelectionInfos] into a list
    while it builds the payload: a value that cannot be iterated makes the
    call raise before anything is sent. *)
Theorem point_cloud_task_rejects_non_iterable (vminitparams : dict)
    (locationName sensorSelectionInfos pointsize ignoreocclusion
     newerthantimestamp request timeout filteringsubsample filteringvoxelsize
     filteringstddev filteringnumnn : value) (e : pyexn) w :
  sensorSelectionInfos <> VNone ->
  py_list sensorSelectionInfos = Raise e ->
  StartVisualizePointCloudTask vminitparams locationName sensorSelectionInfos
    pointsize ignoreocclusion newerthantimestamp request timeout
    filteringsubsample filteringvoxelsize filteringstddev filteringnumnn w
  = (Raise e,
     mkWorld (self w)
       (logged w ++ [mkLog "verbose" "Starting visualize pointcloud thread..."
                       []])%list
       (calls w)).
Proof.
  intros Hv Hl. apply is_not_None_of_ne in Hv.
  unfold StartVisualizePointCloudTask, StartVisualizePointCloudTask_command.
  rewrite Hv, Hl. reflexivity.
Qed.

End PayloadProperties.

(** ** The configuration socket and the published state *)

Section ChannelProperties.
Context {C S B : Type}.
Context `{!zmq.Context C, !zmqclient.ZmqClient C S,
          !zmqsubscriber.ZmqSubscriber C B, !Json}.

Implicit Types (w : @World C S B) (s : S) (b : B).

(** What a configuration request leaves alone: the log, the command socket,
    the subscriber and the contexts. *)
Lemma _SendConfiguration_frame configuration ff timeout cp rj w :
  logged (_SendConfiguration configuration ff timeout cp rj w).2 = logged w
  /\ _commandsocket (self (_SendConfiguration configuration ff timeout cp rj
                             w).2) = _commandsocket (self w).
Proof.
  unfold _SendConfiguration, mbind, M_bind, get_self. cbv beta iota.
  destruct (_configurationsocket (self w)) as [s|] eqn:Hs.
  - destruct (zmqclient.SendCommand s (with_callerid (self w) configuration)
                ff timeout None cp None) as [r s'] eqn:Hsend.
    erewrite on_socket_run; [|exact Hs|exact Hsend].
    destruct r; [destruct (negb ff)|]; unfold lift, mret, M_ret; cbn;
      by destruct (self w).
  - rewrite (on_socket_absent ConfigurationChannel _ _ w Hs). done.
Qed.

(** [Cancel] and [Quit] log that the command, or the server, is stopped
    exactly when the configuration request returned: when the request raises,
    only the announcement is in the log. *)
Theorem completion_is_logged_only_on_return (timeout : value) w :
  let outcome_log {A} (r : outcome A) (started stopped : string) :=
    match r with
    | Return _ => [mkLog "info" started []; mkLog "info" stopped []]
    | Raise _ => [mkLog "info" started []]
    end in
  logged (Cancel timeout w).2
  = (logged w ++ outcome_log (Cancel timeout w).1 "canceling command..."
                   "command is stopped")%list
  /\ logged (Quit timeout w).2
     = (logged w ++ outcome_log (Quit timeout w).1 "stopping visionserver..."
                      "visionserver is stopped")%list.
Proof.
  intros outcome_log. subst outcome_log. cbv beta. split.
  - unfold Cancel, mbind, M_bind, log, mret, M_ret. cbv beta iota.
    set (w1 := mkWorld _ _ _).
    destruct (_SendConfiguration_frame Cancel_command false timeout true true
                w1) as [Hl _].
    destruct (_SendConfiguration Cancel_command false timeout true true w1)
      as [[v|e] w2]; cbn in *; rewrite Hl; [|done].
    by rewrite <- app_assoc.
  - unfold Quit, mbind, M_bind, log, mret, M_ret. cbv beta iota.
    set (w1 := mkWorld _ _ _).
    destruct (_SendConfiguration_frame Quit_command false timeout true true
                w1) as [Hl _].
    destruct (_SendConfiguration Quit_command false timeout true true w1)
      as [[v|e] w2]; cbn in *; rewrite Hl; [|done].
    by rewrite <- app_assoc.
Qed.

(** The configuration requests go over the configuration socket only: none
    of them changes the command socket, so a deferred command stays
    outstanding across them. *)
Theorem configuration_requests_leave_command_socket
    (timeout componentLevels taskId cycleIndex taskType : value) w :
  let untouched {A} (request : M A) :=
    _commandsocket (self (request w).2) = _commandsocket (self w) in
  untouched (Ping timeout)
  /\ untouched (SetLogLevel componentLevels timeout)
  /\ untouched (Cancel timeout)
  /\ untouched (Quit timeout)
  /\ untouched (GetTaskStateService taskId cycleIndex taskType timeout)
  /\ untouched (GetPublishedStateService timeout).
Proof.
  intros untouched. subst untouched. cbv beta.
  unfold Ping, SetLogLevel, Cancel, Quit, GetTaskStateService,
    GetPublishedStateService, mbind, M_bind, log, mret, M_ret.
  cbv beta iota.
  repeat split;
    match goal with
    | |- context [_SendConfiguration ?c ?ff ?t ?cp ?rj ?w1] =>
        destruct (_SendConfiguration_frame c ff t cp rj w1) as [_ Hs];
        destruct (_SendConfiguration c ff t cp rj w1) as [[v|e] w2];
        exact Hs
    end.
Qed.

(** The deferred flow of [GetLatestDetectionResultImages]: with [blockwait]
    false the call returns what the send returned, unvalidated; the later
    [WaitForGetLatestDetectionResultImages] receives the reply and validates
    it in raw mode with no command at hand, so that an empty reply fails as
    an empty response to the command [None]. *)
Theorem deferred_images_flow
    (taskId cycleIndex taskType newerthantimestamp sensorSelectionInfo
     metadataOnly imageTypes limit timeout timeout' ack reply : value)
    w s s1 s2 :
  let command :=
    GetLatestDetectionResultImages_command taskId cycleIndex taskType
      newerthantimestamp sensorSelectionInfo metadataOnly imageTypes limit in
  let sent := with_callerid (self w) command in
  _commandsocket (self w) = Some s ->
  zmqclient.SendCommand s sent false timeout (Some false) true (Some false)
    = (Return ack, s1) ->
  zmqclient.IsWaitingReply s1 = true ->
  zmqclient.ReceiveCommand s1 timeout' false = (Return reply, s2) ->
  let first :=
    GetLatestDetectionResultImages taskId cycleIndex taskType
      newerthantimestamp sensorSelectionInfo metadataOnly imageTypes limit
      false timeout w in
  let second := WaitForGetLatestDetectionResultImages timeout' first.2 in
  first.1 = Return ack
  /\ second.1 = _ProcessResponse reply VNone false
  /\ (reply = VStr "" ->
      second.1 = Raise (spec_empty_failure VNone (VStr "")))
  /\ calls second.2 =
       (calls w ++ [CallSendCommand CommandChannel sent false timeout
                      (Some false) true (Some false);
                    CallIsWaitingReply;
                    CallReceiveCommand timeout' false])%list.
Proof.
  intros command sent Hs Hsend Hwait Hrecv first second.
  assert (Hfirst : first =
            (Return ack,
             mkWorld (set_commandsocket (Some s1) (self w))
               (logged w ++ [mkLog "verbose"
                               "Getting latest detection result images..."
                               []])%list
               (calls w ++ [CallSendCommand CommandChannel sent false timeout
                              (Some false) true (Some false)])%list)).
  { subst first. unfold GetLatestDetectionResultImages.
    unfold mbind at 1. unfold M_bind at 1. unfold log at 1. cbv beta iota.
    rewrite (_ExecuteCommand_run _ _ _ _ _ _ _ s ack s1); [done|done|done]. }
  subst second. rewrite Hfirst. cbn [fst snd].
  unfold WaitForGetLatestDetectionResultImages.
  erewrite _WaitForResponse_receive; [|by destruct (self w)|done|done].
  cbn [fst snd calls wait_outcome]. rewrite <- app_assoc.
  repeat split. by intros ->.
Qed.

Lemma on_subscriber_run {A} call (method : B -> outcome A * B) w b r b' :
  _subscriber (self w) = Some b ->
  method b = (r, b') ->
  on_subscriber call method w =
    (r, mkWorld (set_subscriber (Some b') (self w)) (logged w)
          (calls w ++ [call])).
Proof.
  intros Hb Hm. unfold on_subscriber, mbind, M_bind, get_self. cbn.
  rewrite Hb. unfold record_call, modify_self, lift. cbn. rewrite Hm. cbn.
  destruct r; reflexivity.
Qed.

(** [GetPublishedState] polls the subscriber once and decodes what it got
    without validating it: nothing published gives [None], and a published
    mapping is returned as decoded, an ['error'] entry included. Neither
    socket is used. *)
Theorem published_state_is_decoded_not_validated
    (timeout raw : value) (fireandforget : bool) w b b' :
  _subscriber (self w) = Some b ->
  zmqsubscriber.SpinOnce b timeout (_checkpreemptfn (self w))
    = (Return raw, b') ->
  let run := GetPublishedState timeout fireandforget w in
  (raw = VNone -> run.1 = Return VNone)
  /\ (forall text, raw = VStr text -> run.1 = loads text)
  /\ self run.2 = set_subscriber (Some b') (self w)
  /\ calls run.2 = (calls w ++ [CallSpinOnce timeout])%list.
Proof.
  intros Hb Hspin run.
  assert (Hrun : run =
            ((if is_not_None raw then json_loads raw else Return VNone),
             mkWorld (set_subscriber (Some b') (self w)) (logged w)
               (calls w ++ [CallSpinOnce timeout]))).
  { subst run. unfold GetPublishedState.
    unfold mbind at 1. unfold M_bind at 1. unfold get_self at 1.
    cbv beta iota. rewrite Hb.
    unfold mbind at 1. unfold M_bind at 1. unfold mret at 1.
    unfold M_ret at 1. cbv beta iota.
    unfold mbind at 1. unfold M_bind at 1.
    erewrite on_subscriber_run; [|exact Hb|exact Hspin].
    cbv beta iota. destruct (is_not_None raw); reflexivity. }
  rewrite Hrun. cbn [fst snd self calls].
  split; [by intros ->|]. split; [by intros text ->|]. done.
Qed.

(** A client built by [__init__] has no subscriber; its first
    [GetPublishedState] creates one for [tcp://hostname:commandport+3] on the
    context the sockets use, and polls it. *)
Theorem first_published_state_subscribes_to_status_port
    (host : string) (port : Z) (ctx : option C) (fn : option Callable)
    (reconnectionTimeout callerid timeout : value) (fireandforget : bool)
    (log0 : list LogRecord) (calls0 : list Call) :
  let c := __init__ host port ctx fn reconnectionTimeout callerid in
  let run := GetPublishedState timeout fireandforget (mkWorld c log0 calls0) in
  let subscriber :=
    zmqsubscriber.ZmqSubscriber_new
      ("tcp://" ++ host ++ ":" ++ pretty (port + 3)%Z) (_ctx c) in
  _subscriber c = None
  /\ _subscriber (self run.2)
     = Some (zmqsubscriber.SpinOnce subscriber timeout fn).2
  /\ calls run.2 = (calls0 ++ [CallSpinOnce timeout])%list.
Proof.
  intros c run subscriber. split; [reflexivity|].
  destruct (zmqsubscriber.SpinOnce subscriber timeout fn) as [r b'] eqn:Hspin.
  assert (Hrun : exists r',
             run = (r', mkWorld (set_subscriber (Some b') c) log0
                          (calls0 ++ [CallSpinOnce timeout]))).
  { subst run. unfold GetPublishedState.
    unfold mbind at 1. unfold M_bind at 1. unfold get_self at 1.
    cbv beta iota. cbn [self]. change (_subscriber c) with (@None B).
    cbv beta iota.
    unfold mbind at 1. unfold M_bind at 1. unfold modify_self at 1.
    cbv beta iota.
    unfold mbind at 1. unfold M_bind at 1.
    erewrite on_subscriber_run; [|reflexivity|exact Hspin].
    destruct r as [raw|e]; cbv beta iota;
      [destruct (is_not_None raw)|]; eexists; reflexivity. }
  destruct Hrun as [r' Hrun]. rewrite Hrun. split; reflexivity.
Qed.

End ChannelProperties.

(** ** Every operation *)

Section OperationProperties.
Context {C S B : Type}.
Context `{!zmq.Context C, !zmqclient.ZmqClient C S,
          !zmqsubscriber.ZmqSubscriber C B, !Json, !DictOrder}.

Implicit Types (w : @World C S B) (s : S).

(** An exception of the receive that [except Exception] does not catch (a
    [KeyboardInterrupt], say) leaves [_WaitForResponse] as it is, not turned
    into a client error. *)
Theorem wait_lets_uncaught_exception_through
    (recvjson : bool) (timeout command : value) w s (e : pyexn) s' :
  _commandsocket (self w) = Some s ->
  zmqclient.IsWaitingReply s = true ->
  zmqclient.ReceiveCommand s timeout recvjson = (Raise e, s') ->
  is_Exception e = false ->
  (_WaitForResponse recvjson timeout command w).1 = Raise e.
Proof.
  intros Hs Hw Hrecv He.
  rewrite (_WaitForResponse_receive _ _ _ _ _ _ _ Hs Hw Hrecv).
  cbn [fst wait_outcome]. rewrite He. by destruct e.
Qed.

(** Every high-level operation makes exactly one send: of the payload it
    built, with the caller identifier written in when there is one, over the
    socket of its kind, with the timeout it was given and with preemption
    checks on. *)
Theorem every_operation_sends_its_payload (op : operation) (cmd : dict)
    (fireandforget blockwait : bool) (timeout : value) w s1 s2 :
  _commandsocket (self w) = Some s1 ->
  _configurationsocket (self w) = Some s2 ->
  payload op = Return cmd ->
  exists ff rj bw,
    calls (perform op fireandforget blockwait timeout w).2
    = (calls w ++ [CallSendCommand (channel_of op)
                     (with_callerid (self w) cmd) ff timeout rj true bw])%list.
Proof.
  intros Hs1 Hs2 Hp.
  destruct op; payload_inv Hp; cbn [perform channel_of];
    unfold StartObjectDetectionTask, StartContainerDetectionTask, StopTask,
      ResumeTask, StartVisualizePointCloudTask, BackupVisionLog,
      GetLatestDetectedObjects, GetLatestDetectionResultImages,
      GetDetectionHistory, GetVisionStatistics, Ping, SetLogLevel, Cancel,
      Quit, GetTaskStateService, GetPublishedStateService,
      StartVisualizePointCloudTask_command;
    unfold_builders;
    try match goal with E : is_not_None _ = _ |- _ => rewrite E end;
    try match goal with E : py_list _ = _ |- _ => rewrite E end;
    unfold mbind, M_bind, outcome_bind, log, mret, M_ret, outcome_ret, lift;
    cbv beta iota;
    match goal with
    | |- context [_ExecuteCommand ?c ?ff ?t ?rj ?cp ?bw ?w1] =>
        pose proof (_ExecuteCommand_calls c ff t rj cp bw w1 s1 Hs1) as Hcalls;
        destruct (_ExecuteCommand c ff t rj cp bw w1) as [[v|e] w2]
    | |- context [_SendConfiguration ?c ?ff ?t ?cp ?rj ?w1] =>
        pose proof (_SendConfiguration_calls c ff t cp rj w1 s2 Hs2)
          as Hcalls;
        destruct (_SendConfiguration c ff t cp rj w1) as [[v|e] w2]
    end;
    eexists _, _, _; exact Hcalls.
Qed.

End OperationProperties.

(** ** The further properties at concrete inputs *)

Lemma raw_decode_failure_propagates_witness :
  @_ProcessResponse MiniJson.json (VStr Scenarios.not_json) (VStr "Ping") false
  = Raise (Exception "ValueError" "No JSON object could be decoded").
Proof.
  apply (raw_decode_failure_propagates Scenarios.not_json (VStr "Ping"));
    reflexivity.
Defined.

Lemma raw_response_result_is_not_empty_witness :
  (exists n, py_len (VStr "pong") = Return n /\ (0 < n)%Z)
  /\ (forall d, VStr "pong" = VDict d -> d !! "error" = None).
Proof.
  apply (@raw_response_result_is_not_empty MiniJson.json "pong" (VStr "Ping")).
  reflexivity.
Defined.

Lemma request_on_released_client_raises_witness :
  let w := (Destroy (Scripted.world Examples.anonymous_client)).2 in
  (Ping (VFloat 2) w).1
  = Raise (AttributeError "'NoneType' object has no attribute")
  /\ calls (Ping (VFloat 2) w).2 = calls w.
Proof.
  cbv zeta.
  edestruct (request_on_released_client_raises Ping_command false (VFloat 2)
               VNone true true true
               (Destroy (Scripted.world Examples.anonymous_client)).2)
    as (_ & Hconfiguration & _);
    [vm_compute; reflexivity | vm_compute; reflexivity |].
  unfold Ping. rewrite Hconfiguration. split; vm_compute; reflexivity.
Defined.

Lemma send_failure_propagates_unchanged_witness :
  let w := Scripted.world (Scripted.client VNone [] [] false) in
  (_ExecuteCommand Ping_command false (VFloat 2) true true true w).1
  = Raise (TimeoutError "no reply")
  /\ (_SendConfiguration Ping_command false (VFloat 2) true true w).1
     = Raise (TimeoutError "no reply").
Proof.
  cbv zeta.
  eapply (send_failure_propagates_unchanged Ping_command Ping_command false
            (VFloat 2) true true true
            (Scripted.world (Scripted.client VNone [] [] false)));
    reflexivity.
Defined.

Lemma caller_identifier_is_sent_witness :
  let w := Scripted.world Scenarios.tagged_client in
  exists sent,
    calls (_ExecuteCommand Ping_command false (VFloat 2) true true true w).2
    = [CallSendCommand CommandChannel sent false (VFloat 2) (Some true) true
         (Some true)]
    /\ sent !! "callerid" = Some (VStr "cell1").
Proof.
  cbv zeta.
  edestruct (caller_identifier_is_sent Ping_command Ping_command false
               (VFloat 2) true true true
               (Scripted.world Scenarios.tagged_client))
    as [(sent & Hcalls & Hid & _) _]; [reflexivity | reflexivity | reflexivity |].
  exists sent. split; [exact Hcalls | exact Hid].
Defined.

Lemma borrowed_context_is_never_destroyed_witness :
  let w := Scripted.world Scenarios.borrowing_client in
  exists new,
    calls (Destroy w).2 = (calls w ++ new)%list
    /\ CallDestroyContext ∉ new.
Proof.
  cbv zeta.
  apply (borrowed_context_is_never_destroyed
           (Scripted.world Scenarios.borrowing_client)).
  vm_compute; reflexivity.
Defined.

Lemma teardown_twice_is_teardown_once_witness :
  let w := Scripted.world Examples.anonymous_client in
  (Destroy w).1 = Return ()
  /\ Destroy (Destroy w).2 = (Return (), (Destroy w).2).
Proof.
  cbv zeta.
  edestruct (teardown_twice_is_teardown_once
               (Scripted.world Examples.anonymous_client))
    as (Hfirst & _ & _ & _ & _ & _ & Hsecond).
  - intros s [= <-]. eexists _, _. split; vm_compute; reflexivity.
  - intros s [= <-]. eexists _, _. split; vm_compute; reflexivity.
  - intros b [=].
  - intros x [= <-]. eexists. vm_compute; reflexivity.
  - split; [exact Hfirst | exact Hsecond].
Defined.

Lemma teardown_logs_caught_failures_witness :
  let w := Scripted.world
             (Scenarios.client_with_commandsocket
                (Scenarios.stuck_socket 7004 Examples.connection_reset)) in
  (Destroy w).1 = Return ()
  /\ logged (Destroy w).2
     = [mkLog "exception" "problem destroying commandsocket: %s"
          [ArgExn Examples.connection_reset]]
  /\ is_Some (_commandsocket (self (Destroy w).2))
  /\ _configurationsocket (self (Destroy w).2) = None
  /\ _ctx (self (Destroy w).2) = None.
Proof.
  cbv zeta.
  erewrite (teardown_logs_caught_failures
              (Scripted.world
                 (Scenarios.client_with_commandsocket
                    (Scenarios.stuck_socket 7004 Examples.connection_reset))));
    [|vm_compute; reflexivity..].
  vm_compute. repeat split. by eexists.
Defined.

Lemma teardown_stops_at_setdestroy_failure_witness :
  let w := Scripted.world
             (Scenarios.client_with_commandsocket
                (Scenarios.deaf_socket 7004 Examples.connection_reset)) in
  (Destroy w).1 = Raise Examples.connection_reset
  /\ calls (Destroy w).2 = [CallSetDestroy CommandChannel].
Proof.
  cbv zeta.
  erewrite (teardown_stops_at_setdestroy_failure
              (Scripted.world
                 (Scenarios.client_with_commandsocket
                    (Scenarios.deaf_socket 7004 Examples.connection_reset))));
    [|vm_compute; reflexivity..].
  split; vm_compute; reflexivity.
Defined.

Lemma merged_entries_precedence_witness :
  exists cmd,
    payload Scenarios.merging_operation = Return cmd
    /\ cmd !! "mode" = Some (VStr "fast")
    /\ cmd !! "region" = Some (VStr "bin1").
Proof.
  eexists. split; [reflexivity|]. split.
  - eapply (proj1 (merged_entries_precedence Scenarios.merging_operation _
                     "mode" (VStr "fast") eq_refl)).
    by vm_compute.
  - eapply (proj2 (merged_entries_precedence Scenarios.merging_operation _
                     "region" (VStr "bin1") eq_refl)).
    + by vm_compute.
    + by vm_compute.
    + cbn. rewrite !not_elem_of_cons. repeat split; try discriminate.
      apply not_elem_of_nil.
Defined.

Lemma flag_is_one_only_for_True_witness :
  exists cmd,
    payload Scenarios.merging_operation = Return cmd
    /\ cmd !! "ignoreocclusion" = Some (VInt 0).
Proof.
  eexists. split; [reflexivity|].
  eapply (proj1 (flag_is_one_only_for_True Scenarios.merging_operation _
                   "ignoreocclusion" (VInt 1) eq_refl _ _ _ _)).
  Unshelve.
  - by left.
  - cbn. apply list_elem_of_further, list_elem_of_further, list_elem_of_here.
  - discriminate.
  - by vm_compute.
Defined.

Lemma point_cloud_task_rejects_non_iterable_witness :
  let w := Scripted.world Examples.anonymous_client in
  let run :=
    StartVisualizePointCloudTask ∅ VNone (VInt 3) VNone VNone VNone
      (VBool true) (VFloat 2) VNone VNone VNone VNone w in
  run.1 = Raise (TypeError "object is not iterable") /\ calls run.2 = [].
Proof.
  cbv zeta.
  erewrite (point_cloud_task_rejects_non_iterable ∅ VNone (VInt 3));
    [|discriminate|reflexivity].
  split; reflexivity.
Defined.

Lemma deferred_images_flow_witness :
  let w := Scripted.world Scenarios.deferred_client in
  let first :=
    GetLatestDetectionResultImages VNone VNone VNone (VInt 0) VNone
      (VBool false) VNone VNone false (VFloat 2) w in
  first.1 = Return VNone
  /\ (WaitForGetLatestDetectionResultImages (VFloat 2) first.2).1
     = Raise (spec_empty_failure VNone (VStr "")).
Proof.
  cbv zeta.
  edestruct (deferred_images_flow VNone VNone VNone (VInt 0) VNone
               (VBool false) VNone VNone (VFloat 2) (VFloat 2) VNone
               (VStr "") (Scripted.world Scenarios.deferred_client))
    as (Hfirst & _ & Hempty & _);
    [reflexivity | reflexivity | reflexivity | reflexivity |].
  split; [exact Hfirst | exact (Hempty eq_refl)].
Defined.

Lemma published_state_is_decoded_not_validated_witness :
  let w := Scripted.world
             (Scenarios.polling_client [VStr Examples.error_text]) in
  (GetPublishedState VNone false w).1
  = Return (VDict {[ "error" := VStr "oops" ]})
  /\ calls (GetPublishedState VNone false w).2 = [CallSpinOnce VNone].
Proof.
  cbv zeta.
  edestruct (published_state_is_decoded_not_validated VNone
               (VStr Examples.error_text) false
               (Scripted.world
                  (Scenarios.polling_client [VStr Examples.error_text])))
    as (_ & Hdecoded & _ & Hcalls); [reflexivity | reflexivity |].
  split; [|exact Hcalls].
  rewrite (Hdecoded _ eq_refl). by vm_compute.
Defined.

Lemma wait_lets_uncaught_exception_through_witness :
  let w := Scripted.world
             (Examples.waiting_client
                [Raise (BaseException "KeyboardInterrupt")]) in
  (_WaitForResponse true (VFloat 2) VNone w).1
  = Raise (BaseException "KeyboardInterrupt").
Proof.
  cbv zeta.
  eapply (wait_lets_uncaught_exception_through true (VFloat 2) VNone
            (Scripted.world
               (Examples.waiting_client
                  [Raise (BaseException "KeyboardInterrupt")])));
    reflexivity.
Defined.

Lemma every_operation_sends_its_payload_witness :
  let w := Scripted.world Scenarios.tagged_client in
  exists ff rj bw,
    calls (perform OpCancel false true (VFloat 2) w).2
    = [CallSendCommand ConfigurationChannel
         (<["callerid" := VStr "cell1"]> Cancel_command) ff (VFloat 2) rj true
         bw].
Proof.
  cbv zeta.
  eapply (every_operation_sends_its_payload OpCancel Cancel_command false true
            (VFloat 2) (Scripted.world Scenarios.tagged_client));
    reflexivity.
Defined.
